(** * X3DH / PQXDH key agreement

    A shallow embedding of [CryptoUtils] ([src/utils/crypto.ts]) and of the
    classes [X3DH] and [PQXDH] ([src/x3dh/X3DH.ts], whose text also carries
    the [PQXDH] class that the demo imports from ["./PQXDH"]).

    The TypeScript code is a thin layer over four libraries (noble curves and
    hashes, crypto-js, mlkem) and Node's [Buffer].  The libraries are taken as
    an interface ([Primitives]) with their contracts stated as propositions;
    the [Buffer] base64 codec, the comparison of JavaScript strings, array
    indexing and exceptions are modelled concretely.  JavaScript strings are
    modelled by [string]: the keys, secrets and ciphertexts the code handles
    are base64 text, for which the order of character codes is the order of
    UTF-16 code units. *)

From Stdlib Require Import List String Ascii NArith ZArith Lia Bool.
From Stdlib.Strings Require Import Byte.
Import ListNotations.

Local Open Scope N_scope.

(** ** Values *)

(** A [Uint8Array] / [Buffer]. *)
Definition bytes := list byte.

(** JavaScript exceptions.  The code declares no error kinds of its own:
    a [TypeError] is what the runtime raises on [undefined.privateKey] or on
    [Buffer.from(undefined, ...)]; [LibraryError] is any [Error] thrown from
    inside one of the libraries. *)
Inductive exn : Type :=
| TypeError
| LibraryError.

Inductive result (A : Type) : Type :=
| Ok (a : A)
| Throw (e : exn).
Arguments Ok {A} a.
Arguments Throw {A} e.

(** ** Computations: state passing with exceptions

    [M S A] is a computation over a state [S] that either returns an [A] or
    throws; the state it leaves behind is kept in both cases.  An [await] of
    a promise is a [bind], a rejection is a [Throw]. *)
Definition M (S A : Type) : Type := S -> result A * S.

Definition ret {S A} (a : A) : M S A := fun s => (Ok a, s).

Definition throw {S A} (e : exn) : M S A := fun s => (Throw e, s).

Definition bind {S A B} (c : M S A) (k : A -> M S B) : M S B :=
  fun s =>
    match c s with
    | (Ok a, s') => k a s'
    | (Throw e, s') => (Throw e, s')
    end.

(** A call that cannot touch the state (a pure function that may throw). *)
Definition liftR {S A} (r : result A) : M S A := fun s => (r, s).

Declare Scope monad_scope.
Delimit Scope monad_scope with monad.
Notation "x <- c ;; k" := (bind c (fun x => k))
  (at level 61, c at next level, right associativity) : monad_scope.
Notation "' pat <- c ;; k" := (bind c (fun x => match x with pat => k end))
  (at level 61, pat pattern, c at next level, right associativity) : monad_scope.

(** [Array(n).fill(null).map(() => c)]: run [c] [n] times, left to right. *)
Fixpoint replicateM {S A} (n : nat) (c : M S A) : M S (list A) :=
  match n with
  | O => ret []
  | S n' => bind c (fun a => bind (replicateM n' c) (fun l => ret (a :: l)))
  end.

(** [arr[i]] for a JavaScript number [i]: [undefined] (here [None]) unless
    [i] is an index of the array. *)
Definition js_index {A} (arr : list A) (i : Z) : option A :=
  if (0 <=? i)%Z then nth_error arr (Z.to_nat i) else None.

(** ** Node's [Buffer]: the base64 codec and the UTF-8 bytes of ASCII text *)
Module Buffer.

Definition byte_of_N (n : N) : byte :=
  match Byte.of_N (n mod 256) with
  | Some b => b
  | None => x00
  end.

Definition alphabet : string :=
  "ABCDEFGHIJKLMNOPQRSTUVWXYZabcdefghijklmnopqrstuvwxyz0123456789+/".

Definition base64_char (n : N) : ascii :=
  match String.get (N.to_nat n) alphabet with
  | Some c => c
  | None => "="%char
  end.

(** The decoder's table: the standard alphabet, and the URL-safe
    characters are accepted as well. *)
Definition unbase64 (c : ascii) : option N :=
  let n := N_of_ascii c in
  if (65 <=? n) && (n <=? 90) then Some (n - 65)
  else if (97 <=? n) && (n <=? 122) then Some (n - 71)
  else if (48 <=? n) && (n <=? 57) then Some (n + 4)
  else if (n =? 43) || (n =? 45) then Some 62
  else if (n =? 47) || (n =? 95) then Some 63
  else None.

(** The decoder skips characters outside the table and stops at the first
    padding character. *)
Fixpoint sextets (s : string) : list N :=
  match s with
  | EmptyString => []
  | String c s' =>
      if Ascii.eqb c "=" then []
      else match unbase64 c with
           | Some v => v :: sextets s'
           | None => sextets s'
           end
  end.

Fixpoint unpack (l : list N) : bytes :=
  match l with
  | s0 :: s1 :: s2 :: s3 :: rest =>
      byte_of_N (s0 * 4 + s1 / 16)
      :: byte_of_N ((s1 mod 16) * 16 + s2 / 4)
      :: byte_of_N ((s2 mod 4) * 64 + s3)
      :: unpack rest
  | [s0; s1; s2] =>
      [byte_of_N (s0 * 4 + s1 / 16); byte_of_N ((s1 mod 16) * 16 + s2 / 4)]
  | [s0; s1] => [byte_of_N (s0 * 4 + s1 / 16)]
  | _ => []
  end.

(** [Buffer.from(s, "base64")] *)
Definition from_base64 (s : string) : bytes := unpack (sextets s).

(** [buf.toString("base64")] *)
Fixpoint toString_base64 (bs : bytes) : string :=
  match bs with
  | [] => EmptyString
  | [a] =>
      let a := Byte.to_N a in
      String (base64_char (a / 4))
        (String (base64_char ((a mod 4) * 16)) "==")
  | [a; b] =>
      let a := Byte.to_N a in
      let b := Byte.to_N b in
      String (base64_char (a / 4))
        (String (base64_char ((a mod 4) * 16 + b / 16))
           (String (base64_char ((b mod 16) * 4)) "="))
  | a :: b :: c :: rest =>
      let a := Byte.to_N a in
      let b := Byte.to_N b in
      let c := Byte.to_N c in
      String (base64_char (a / 4))
        (String (base64_char ((a mod 4) * 16 + b / 16))
           (String (base64_char ((b mod 16) * 4 + c / 64))
              (String (base64_char (c mod 64)) (toString_base64 rest))))
  end.

(** [Buffer.from(s)] for ASCII text. *)
Definition from_utf8 (s : string) : bytes := list_byte_of_string s.

End Buffer.

(** ** Key material (the interfaces of [X3DH.ts] and [PQXDH.ts]) *)

(** [IdentityKeyPair] and [PreKeyPair]: base64 text of 32-byte keys. *)
Module KeyPair.
Record t : Type := { publicKey : string; privateKey : string }.
End KeyPair.

(** [SignedPreKeyPair extends PreKeyPair]. *)
Module SignedPreKeyPair.
Record t : Type :=
  { publicKey : string; privateKey : string; signature : string }.
End SignedPreKeyPair.

(** The [signedPreKey] object of a public bundle. *)
Module SignedPreKey.
Record t : Type := { publicKey : string; signature : string }.
End SignedPreKey.

(** [kyberKeyPair]: raw [Uint8Array]s. *)
Module KyberKeyPair.
Record t : Type := { publicKey : bytes; privateKey : bytes }.
End KyberKeyPair.

(** An instance of [X3DH] or [PQXDH] together with the state of the system's
    random source, which is all a method call can read or change. *)
Record Party (Session World : Type) : Type :=
  { session : Session; world : World }.
Arguments session {Session World} p.
Arguments world {Session World} p.

(** [this.session] *)
Definition this_session {S W} : M (Party S W) S :=
  fun p => (Ok (session p), p).

(** A call into [CryptoUtils] or a library from inside a method: it sees the
    random source and nothing of the instance. *)
Definition liftW {S W A} (c : M W A) : M (Party S W) A :=
  fun p =>
    match c (world p) with
    | (r, w') => (r, {| session := session p; world := w' |})
    end.

(** ** The libraries

    [Entropy] is the state of the system's secure random source.  Calls that
    draw from it are computations over it; every library call may throw. *)
Class Primitives : Type :=
  { Entropy : Type;
    (** [randomBytes(n)] of [@noble/hashes/utils] *)
    randomBytes : nat -> M Entropy bytes;
    (** [sha512] of [@noble/hashes/sha512] *)
    sha512 : bytes -> bytes;
    (** [x25519.getPublicKey(privateKey)] of [@noble/curves/ed25519] *)
    x25519_getPublicKey : bytes -> result bytes;
    (** [x25519.getSharedSecret(privateKey, publicKey)] *)
    x25519_getSharedSecret : bytes -> bytes -> result bytes;
    (** [AES.encrypt(message, key, {mode: CBC, padding: Pkcs7}).toString()]
        of [crypto-js]; the salt is drawn inside the library. *)
    AES_encrypt : string -> string -> M Entropy string;
    (** [AES.decrypt(encryptedMessage, key, {...}).toString(enc.Utf8)] *)
    AES_decrypt : string -> string -> result string;
    (** [new MlKem1024().generateKeyPair()] of [mlkem]: [[publicKey, privateKey]] *)
    MlKem1024_generateKeyPair : M Entropy (bytes * bytes);
    (** [kyber.encap(publicKey)]: [[ciphertext, sharedSecret]] *)
    MlKem1024_encap : bytes -> M Entropy (bytes * bytes);
    (** [kyber.decap(ciphertext, privateKey)] *)
    MlKem1024_decap : bytes -> bytes -> result bytes }.

(** What the agreement needs of the libraries. *)

(** Diffie-Hellman on the curve: the two parties of an exchange between
    generated keys obtain the same secret. *)
Definition x25519_commutes (P : Primitives) : Prop :=
  forall a b A B,
    x25519_getPublicKey a = Ok A ->
    x25519_getPublicKey b = Ok B ->
    exists s, x25519_getSharedSecret a B = Ok s /\ x25519_getSharedSecret b A = Ok s.

(** The cipher decrypts what it encrypted under the same key. *)
Definition AES_inverts (P : Primitives) : Prop :=
  forall message key w c w',
    AES_encrypt message key w = (Ok c, w') ->
    AES_decrypt c key = Ok message.

(** Decapsulation with a generated private key recovers the secret that was
    encapsulated to its public key. *)
Definition MlKem1024_correct (P : Primitives) : Prop :=
  forall w pk sk w' w1 ct ss w2,
    MlKem1024_generateKeyPair w = (Ok (pk, sk), w') ->
    MlKem1024_encap pk w1 = (Ok (ct, ss), w2) ->
    MlKem1024_decap ct sk = Ok ss.

Local Open Scope monad_scope.
Local Open Scope string_scope.

(** ** [src/utils/crypto.ts] *)
Module CryptoUtils.
Section WithPrimitives.
Context {P : Primitives}.

Definition APP_INFO : string := "X3DH_Demo_v1".

(** [const [firstKey, secondKey] = key1 < key2 ? [key1, key2] : [key2, key1]] *)
Definition orderKeys (key1 key2 : string) : string * string :=
  if (key1 <? key2)%string then (key1, key2) else (key2, key1).

(** [combinedKeys], the input of the hash in [generateSafetyNumber]. *)
Definition combinedKeys (key1 key2 : string) : bytes :=
  let '(firstKey, secondKey) := orderKeys key1 key2 in
  (Buffer.from_base64 firstKey ++ Buffer.from_base64 secondKey)%list.

Definition generateSafetyNumber (key1 key2 : string) : string :=
  let hash := sha512 (combinedKeys key1 key2) in
  substring 0 12 (Buffer.toString_base64 hash).

Definition generateKeyPair : M Entropy KeyPair.t :=
  privateKey <- randomBytes 32 ;;
  publicKey <- liftR (x25519_getPublicKey privateKey) ;;
  ret {| KeyPair.publicKey := Buffer.toString_base64 publicKey;
         KeyPair.privateKey := Buffer.toString_base64 privateKey |}.

Definition generatePreKey : M Entropy KeyPair.t := generateKeyPair.

Definition sign (privateKey data : string) : string :=
  let privateKeyBytes := Buffer.from_base64 privateKey in
  let dataBytes := Buffer.from_base64 data in
  let signatureInput := (privateKeyBytes ++ dataBytes)%list in
  let signature := sha512 signatureInput in
  Buffer.toString_base64 signature.

Definition generateSignedPreKey (identityPrivateKey : string)
  : M Entropy SignedPreKeyPair.t :=
  keyPair <- generateKeyPair ;;
  let signature := sign identityPrivateKey (KeyPair.publicKey keyPair) in
  ret {| SignedPreKeyPair.publicKey := KeyPair.publicKey keyPair;
         SignedPreKeyPair.privateKey := KeyPair.privateKey keyPair;
         SignedPreKeyPair.signature := signature |}.

Definition deriveKey (keyMaterial : string) : string :=
  let keyBytes := Buffer.from_base64 keyMaterial in
  let info := Buffer.from_utf8 APP_INFO in
  let derivationInput := (keyBytes ++ info)%list in
  let derivedKey := sha512 derivationInput in
  Buffer.toString_base64 (firstn 32 derivedKey).

Definition encrypt (message key : string) : M Entropy string :=
  let derivedKey := deriveKey key in
  AES_encrypt message derivedKey.

Definition decrypt (encryptedMessage key : string) : result string :=
  let derivedKey := deriveKey key in
  AES_decrypt encryptedMessage derivedKey.

Definition deriveSharedSecret (privateKey publicKey : string) : result string :=
  let privateKeyBytes := Buffer.from_base64 privateKey in
  let publicKeyBytes := Buffer.from_base64 publicKey in
  match x25519_getSharedSecret privateKeyBytes publicKeyBytes with
  | Ok sharedSecret => Ok (Buffer.toString_base64 sharedSecret)
  | Throw e => Throw e
  end.

Definition combineSharedSecrets (secrets : list string) : string :=
  let combinedSecrets := map Buffer.from_base64 secrets in
  let concatenated := List.concat combinedSecrets in
  let info := Buffer.from_utf8 APP_INFO in
  let finalInput := (concatenated ++ info)%list in
  let finalHash := sha512 finalInput in
  Buffer.toString_base64 finalHash.

End WithPrimitives.
End CryptoUtils.

(** ** [src/x3dh/X3DH.ts] *)
Module X3DH.

(** [X3DHSession] *)
Module Session.
Record t : Type :=
  { identityKey : KeyPair.t;
    preKeys : list KeyPair.t;
    signedPreKey : SignedPreKeyPair.t }.
End Session.

(** The public bundle, the return type of [getPublicBundle]. *)
Module Bundle.
Record t : Type :=
  { identityKey : string;
    preKeys : list string;
    signedPreKey : SignedPreKey.t }.
End Bundle.

(** The return type of [encryptMessage]. *)
Module EncryptedMessage.
Record t : Type :=
  { encryptedMessage : string;
    ephemeralKey : string;
    usedPreKeyIndex : Z }.
End EncryptedMessage.

Section WithPrimitives.
Context {P : Primitives}.

Definition initializeSession : M Entropy Session.t :=
  identityKey <- CryptoUtils.generateKeyPair ;;
  preKeys <- replicateM 10 CryptoUtils.generatePreKey ;;
  signedPreKey <-
    CryptoUtils.generateSignedPreKey (KeyPair.privateKey identityKey) ;;
  ret {| Session.identityKey := identityKey;
         Session.preKeys := preKeys;
         Session.signedPreKey := signedPreKey |}.

Definition getPublicBundle : M (Party Session.t Entropy) Bundle.t :=
  this <- this_session ;;
  ret {| Bundle.identityKey := KeyPair.publicKey (Session.identityKey this);
         Bundle.preKeys := map KeyPair.publicKey (Session.preKeys this);
         Bundle.signedPreKey :=
           {| SignedPreKey.publicKey :=
                SignedPreKeyPair.publicKey (Session.signedPreKey this);
              SignedPreKey.signature :=
                SignedPreKeyPair.signature (Session.signedPreKey this) |} |}.

Definition encryptMessage (recipientBundle : Bundle.t) (message : string)
  : M (Party Session.t Entropy) EncryptedMessage.t :=
  this <- this_session ;;
  (* Generate ephemeral key *)
  ephemeralKey <- liftW CryptoUtils.generateKeyPair ;;
  (* Use the first available pre-key *)
  let usedPreKeyIndex := 0%Z in
  let usedPreKey := js_index (Bundle.preKeys recipientBundle) usedPreKeyIndex in
  (* Calculate all DH values *)
  dh1 <- liftR (CryptoUtils.deriveSharedSecret
                  (KeyPair.privateKey (Session.identityKey this))
                  (Bundle.identityKey recipientBundle)) ;;
  dh2 <- liftR (CryptoUtils.deriveSharedSecret
                  (KeyPair.privateKey ephemeralKey)
                  (Bundle.identityKey recipientBundle)) ;;
  dh3 <- match usedPreKey with
         | Some usedPreKey =>
             liftR (CryptoUtils.deriveSharedSecret
                      (KeyPair.privateKey ephemeralKey) usedPreKey)
         | None => throw TypeError (* [Buffer.from(undefined, "base64")] *)
         end ;;
  dh4 <- liftR (CryptoUtils.deriveSharedSecret
                  (KeyPair.privateKey ephemeralKey)
                  (SignedPreKey.publicKey (Bundle.signedPreKey recipientBundle))) ;;
  (* Combine all shared secrets with application info *)
  let sharedSecret := CryptoUtils.combineSharedSecrets [dh1; dh2; dh3; dh4] in
  (* Encrypt the message *)
  encryptedMessage <- liftW (CryptoUtils.encrypt message sharedSecret) ;;
  ret {| EncryptedMessage.encryptedMessage := encryptedMessage;
         EncryptedMessage.ephemeralKey := KeyPair.publicKey ephemeralKey;
         EncryptedMessage.usedPreKeyIndex := usedPreKeyIndex |}.

Definition decryptMessage (senderBundle : Bundle.t)
    (encryptedMessage ephemeralKey : string) (usedPreKeyIndex : Z)
  : M (Party Session.t Entropy) string :=
  this <- this_session ;;
  let usedPreKey := js_index (Session.preKeys this) usedPreKeyIndex in
  (* Calculate all DH values in the same order as encryption *)
  dh1 <- liftR (CryptoUtils.deriveSharedSecret
                  (KeyPair.privateKey (Session.identityKey this))
                  (Bundle.identityKey senderBundle)) ;;
  dh2 <- liftR (CryptoUtils.deriveSharedSecret
                  (KeyPair.privateKey (Session.identityKey this))
                  ephemeralKey) ;;
  dh3 <- match usedPreKey with
         | Some usedPreKey =>
             liftR (CryptoUtils.deriveSharedSecret
                      (KeyPair.privateKey usedPreKey) ephemeralKey)
         | None => throw TypeError (* [undefined.privateKey] *)
         end ;;
  dh4 <- liftR (CryptoUtils.deriveSharedSecret
                  (SignedPreKeyPair.privateKey (Session.signedPreKey this))
                  ephemeralKey) ;;
  (* Combine all shared secrets with application info in the same order *)
  let sharedSecret := CryptoUtils.combineSharedSecrets [dh1; dh2; dh3; dh4] in
  (* Decrypt the message *)
  liftR (CryptoUtils.decrypt encryptedMessage sharedSecret).

(** The agreement part of [encryptMessage] on its own: the fresh ephemeral
    key pair and the list handed to [combineSharedSecrets]. *)
Definition encryptMessage_secrets (recipientBundle : Bundle.t)
  : M (Party Session.t Entropy) (KeyPair.t * list string) :=
  this <- this_session ;;
  ephemeralKey <- liftW CryptoUtils.generateKeyPair ;;
  let usedPreKeyIndex := 0%Z in
  let usedPreKey := js_index (Bundle.preKeys recipientBundle) usedPreKeyIndex in
  dh1 <- liftR (CryptoUtils.deriveSharedSecret
                  (KeyPair.privateKey (Session.identityKey this))
                  (Bundle.identityKey recipientBundle)) ;;
  dh2 <- liftR (CryptoUtils.deriveSharedSecret
                  (KeyPair.privateKey ephemeralKey)
                  (Bundle.identityKey recipientBundle)) ;;
  dh3 <- match usedPreKey with
         | Some usedPreKey =>
             liftR (CryptoUtils.deriveSharedSecret
                      (KeyPair.privateKey ephemeralKey) usedPreKey)
         | None => throw TypeError
         end ;;
  dh4 <- liftR (CryptoUtils.deriveSharedSecret
                  (KeyPair.privateKey ephemeralKey)
                  (SignedPreKey.publicKey (Bundle.signedPreKey recipientBundle))) ;;
  ret (ephemeralKey, [dh1; dh2; dh3; dh4]).

(** The agreement part of [decryptMessage] on its own: the list handed to
    [combineSharedSecrets]. *)
Definition decryptMessage_secrets (senderBundle : Bundle.t)
    (ephemeralKey : string) (usedPreKeyIndex : Z)
  : M (Party Session.t Entropy) (list string) :=
  this <- this_session ;;
  let usedPreKey := js_index (Session.preKeys this) usedPreKeyIndex in
  dh1 <- liftR (CryptoUtils.deriveSharedSecret
                  (KeyPair.privateKey (Session.identityKey this))
                  (Bundle.identityKey senderBundle)) ;;
  dh2 <- liftR (CryptoUtils.deriveSharedSecret
                  (KeyPair.privateKey (Session.identityKey this))
                  ephemeralKey) ;;
  dh3 <- match usedPreKey with
         | Some usedPreKey =>
             liftR (CryptoUtils.deriveSharedSecret
                      (KeyPair.privateKey usedPreKey) ephemeralKey)
         | None => throw TypeError
         end ;;
  dh4 <- liftR (CryptoUtils.deriveSharedSecret
                  (SignedPreKeyPair.privateKey (Session.signedPreKey this))
                  ephemeralKey) ;;
  ret [dh1; dh2; dh3; dh4].

End WithPrimitives.
End X3DH.

(** ** The [PQXDH] class *)
Module PQXDH.

(** [PQXDHSession] *)
Module Session.
Record t : Type :=
  { identityKey : KeyPair.t;
    preKeys : list KeyPair.t;
    signedPreKey : SignedPreKeyPair.t;
    kyberKeyPair : KyberKeyPair.t }.
End Session.

Module Bundle.
Record t : Type :=
  { identityKey : string;
    preKeys : list string;
    signedPreKey : SignedPreKey.t;
    kyberPublicKey : bytes }.
End Bundle.

Module EncryptedMessage.
Record t : Type :=
  { encryptedMessage : string;
    ephemeralKey : string;
    usedPreKeyIndex : Z;
    kyberCiphertext : bytes }.
End EncryptedMessage.

Section WithPrimitives.
Context {P : Primitives}.

Definition initializeSession : M Entropy Session.t :=
  identityKey <- CryptoUtils.generateKeyPair ;;
  preKeys <- replicateM 10 CryptoUtils.generatePreKey ;;
  signedPreKey <-
    CryptoUtils.generateSignedPreKey (KeyPair.privateKey identityKey) ;;
  (* Generate Kyber key pair *)
  '(kyberPublicKey, kyberPrivateKey) <- MlKem1024_generateKeyPair ;;
  ret {| Session.identityKey := identityKey;
         Session.preKeys := preKeys;
         Session.signedPreKey := signedPreKey;
         Session.kyberKeyPair :=
           {| KyberKeyPair.publicKey := kyberPublicKey;
              KyberKeyPair.privateKey := kyberPrivateKey |} |}.

Definition getPublicBundle : M (Party Session.t Entropy) Bundle.t :=
  this <- this_session ;;
  ret {| Bundle.identityKey := KeyPair.publicKey (Session.identityKey this);
         Bundle.preKeys := map KeyPair.publicKey (Session.preKeys this);
         Bundle.signedPreKey :=
           {| SignedPreKey.publicKey :=
                SignedPreKeyPair.publicKey (Session.signedPreKey this);
              SignedPreKey.signature :=
                SignedPreKeyPair.signature (Session.signedPreKey this) |};
         Bundle.kyberPublicKey :=
           KyberKeyPair.publicKey (Session.kyberKeyPair this) |}.

Definition encryptMessage (recipientBundle : Bundle.t) (message : string)
  : M (Party Session.t Entropy) EncryptedMessage.t :=
  this <- this_session ;;
  (* Generate ephemeral key *)
  ephemeralKey <- liftW CryptoUtils.generateKeyPair ;;
  (* Use the first available pre-key *)
  let usedPreKeyIndex := 0%Z in
  let usedPreKey := js_index (Bundle.preKeys recipientBundle) usedPreKeyIndex in
  (* Calculate all DH values *)
  dh1 <- liftR (CryptoUtils.deriveSharedSecret
                  (KeyPair.privateKey (Session.identityKey this))
                  (Bundle.identityKey recipientBundle)) ;;
  dh2 <- liftR (CryptoUtils.deriveSharedSecret
                  (KeyPair.privateKey ephemeralKey)
                  (Bundle.identityKey recipientBundle)) ;;
  dh3 <- match usedPreKey with
         | Some usedPreKey =>
             liftR (CryptoUtils.deriveSharedSecret
                      (KeyPair.privateKey ephemeralKey) usedPreKey)
         | None => throw TypeError (* [Buffer.from(undefined, "base64")] *)
         end ;;
  dh4 <- liftR (CryptoUtils.deriveSharedSecret
                  (KeyPair.privateKey ephemeralKey)
                  (SignedPreKey.publicKey (Bundle.signedPreKey recipientBundle))) ;;
  (* Generate Kyber shared secret and ciphertext *)
  '(kyberCiphertext, kyberSharedSecret) <-
    liftW (MlKem1024_encap (Bundle.kyberPublicKey recipientBundle)) ;;
  (* Combine all shared secrets with application info *)
  let sharedSecret :=
    CryptoUtils.combineSharedSecrets
      [dh1; dh2; dh3; dh4; Buffer.toString_base64 kyberSharedSecret] in
  (* Encrypt the message *)
  encryptedMessage <- liftW (CryptoUtils.encrypt message sharedSecret) ;;
  ret {| EncryptedMessage.encryptedMessage := encryptedMessage;
         EncryptedMessage.ephemeralKey := KeyPair.publicKey ephemeralKey;
         EncryptedMessage.usedPreKeyIndex := usedPreKeyIndex;
         EncryptedMessage.kyberCiphertext := kyberCiphertext |}.

Definition decryptMessage (senderBundle : Bundle.t)
    (encryptedMessage ephemeralKey : string) (usedPreKeyIndex : Z)
    (kyberCiphertext : bytes)
  : M (Party Session.t Entropy) string :=
  this <- this_session ;;
  let usedPreKey := js_index (Session.preKeys this) usedPreKeyIndex in
  (* Calculate all DH values in the same order as encryption *)
  dh1 <- liftR (CryptoUtils.deriveSharedSecret
                  (KeyPair.privateKey (Session.identityKey this))
                  (Bundle.identityKey senderBundle)) ;;
  dh2 <- liftR (CryptoUtils.deriveSharedSecret
                  (KeyPair.privateKey (Session.identityKey this))
                  ephemeralKey) ;;
  dh3 <- match usedPreKey with
         | Some usedPreKey =>
             liftR (CryptoUtils.deriveSharedSecret
                      (KeyPair.privateKey usedPreKey) ephemeralKey)
         | None => throw TypeError (* [undefined.privateKey] *)
         end ;;
  dh4 <- liftR (CryptoUtils.deriveSharedSecret
                  (SignedPreKeyPair.privateKey (Session.signedPreKey this))
                  ephemeralKey) ;;
  (* Decapsulate Kyber ciphertext to get shared secret *)
  kyberSharedSecret <-
    liftR (MlKem1024_decap kyberCiphertext
             (KyberKeyPair.privateKey (Session.kyberKeyPair this))) ;;
  (* Combine all shared secrets with application info in the same order *)
  let sharedSecret :=
    CryptoUtils.combineSharedSecrets
      [dh1; dh2; dh3; dh4; Buffer.toString_base64 kyberSharedSecret] in
  (* Decrypt the message *)
  liftR (CryptoUtils.decrypt encryptedMessage sharedSecret).

(** The agreement part of [encryptMessage] on its own: the fresh ephemeral
    key pair, the KEM ciphertext and the list handed to
    [combineSharedSecrets]. *)
Definition encryptMessage_secrets (recipientBundle : Bundle.t)
  : M (Party Session.t Entropy) (KeyPair.t * bytes * list string) :=
  this <- this_session ;;
  ephemeralKey <- liftW CryptoUtils.generateKeyPair ;;
  let usedPreKeyIndex := 0%Z in
  let usedPreKey := js_index (Bundle.preKeys recipientBundle) usedPreKeyIndex in
  dh1 <- liftR (CryptoUtils.deriveSharedSecret
                  (KeyPair.privateKey (Session.identityKey this))
                  (Bundle.identityKey recipientBundle)) ;;
  dh2 <- liftR (CryptoUtils.deriveSharedSecret
                  (KeyPair.privateKey ephemeralKey)
                  (Bundle.identityKey recipientBundle)) ;;
  dh3 <- match usedPreKey with
         | Some usedPreKey =>
             liftR (CryptoUtils.deriveSharedSecret
                      (KeyPair.privateKey ephemeralKey) usedPreKey)
         | None => throw TypeError
         end ;;
  dh4 <- liftR (CryptoUtils.deriveSharedSecret
                  (KeyPair.privateKey ephemeralKey)
                  (SignedPreKey.publicKey (Bundle.signedPreKey recipientBundle))) ;;
  '(kyberCiphertext, kyberSharedSecret) <-
    liftW (MlKem1024_encap (Bundle.kyberPublicKey recipientBundle)) ;;
  ret (ephemeralKey, kyberCiphertext,
       [dh1; dh2; dh3; dh4; Buffer.toString_base64 kyberSharedSecret]).

(** The agreement part of [decryptMessage] on its own. *)
Definition decryptMessage_secrets (senderBundle : Bundle.t)
    (ephemeralKey : string) (usedPreKeyIndex : Z) (kyberCiphertext : bytes)
  : M (Party Session.t Entropy) (list string) :=
  this <- this_session ;;
  let usedPreKey := js_index (Session.preKeys this) usedPreKeyIndex in
  dh1 <- liftR (CryptoUtils.deriveSharedSecret
                  (KeyPair.privateKey (Session.identityKey this))
                  (Bundle.identityKey senderBundle)) ;;
  dh2 <- liftR (CryptoUtils.deriveSharedSecret
                  (KeyPair.privateKey (Session.identityKey this))
                  ephemeralKey) ;;
  dh3 <- match usedPreKey with
         | Some usedPreKey =>
             liftR (CryptoUtils.deriveSharedSecret
                      (KeyPair.privateKey usedPreKey) ephemeralKey)
         | None => throw TypeError
         end ;;
  dh4 <- liftR (CryptoUtils.deriveSharedSecret
                  (SignedPreKeyPair.privateKey (Session.signedPreKey this))
                  ephemeralKey) ;;
  kyberSharedSecret <-
    liftR (MlKem1024_decap kyberCiphertext
             (KyberKeyPair.privateKey (Session.kyberKeyPair this))) ;;
  ret [dh1; dh2; dh3; dh4; Buffer.toString_base64 kyberSharedSecret].

End WithPrimitives.
End PQXDH.

(** ** Byte-wise lexicographic order on decoded keys (as [Buffer.compare]) *)
Fixpoint bytes_compare (x y : bytes) : comparison :=
  match x, y with
  | [], [] => Eq
  | [], _ :: _ => Lt
  | _ :: _, [] => Gt
  | a :: x', b :: y' =>
      match N.compare (Byte.to_N a) (Byte.to_N b) with
      | Eq => bytes_compare x' y'
      | c => c
      end
  end.

Definition bytes_leb (x y : bytes) : bool :=
  match bytes_compare x y with
  | Gt => false
  | _ => true
  end.

(** The safety number's ordering as the specification words it: of the two
    keys, the one put first in the hashed concatenation is the one whose
    decoded bytes are the smaller. *)
Definition first_is_bytewise_smaller (key1 key2 : string) : Prop :=
  exists firstKey secondKey,
    ((firstKey = key1 /\ secondKey = key2) \/
     (firstKey = key2 /\ secondKey = key1)) /\
    bytes_leb (Buffer.from_base64 firstKey) (Buffer.from_base64 secondKey) = true /\
    CryptoUtils.combinedKeys key1 key2 =
      (Buffer.from_base64 firstKey ++ Buffer.from_base64 secondKey)%list.

(** ** Honestly generated key material *)

(** A key pair produced by [generateKeyPair]. *)
Definition generated {P : Primitives} (kp : KeyPair.t) : Prop :=
  exists w w', CryptoUtils.generateKeyPair w = (Ok kp, w').

(** A method call leaves [this.session] as it found it. *)
Definition preserves_session {S W A} (c : M (Party S W) A) : Prop :=
  forall p, session (snd (c p)) = session p.

(** ** The initiator's steps, as the specification lists them

    [encryptMessage] on bundle [b] from the party state [p] returned [art]:
    a fresh ephemeral key pair [eph] was generated first, the four DH values
    are those of steps 2-5, [combineSharedSecrets] received exactly that list
    (with the encapsulated secret as fifth element for PQXDH), and the
    plaintext went to the cipher under the key derived from its result. *)
Definition X3DH_initiator_steps {P : Primitives} (b : X3DH.Bundle.t)
    (m : string) (p : Party X3DH.Session.t Entropy)
    (art : X3DH.EncryptedMessage.t) : Prop :=
  exists eph w1 w2 pk0 dh1 dh2 dh3 dh4,
    CryptoUtils.generateKeyPair (world p) = (Ok eph, w1) /\
    nth_error (X3DH.Bundle.preKeys b) 0 = Some pk0 /\
    CryptoUtils.deriveSharedSecret
      (KeyPair.privateKey (X3DH.Session.identityKey (session p)))
      (X3DH.Bundle.identityKey b) = Ok dh1 /\
    CryptoUtils.deriveSharedSecret
      (KeyPair.privateKey eph) (X3DH.Bundle.identityKey b) = Ok dh2 /\
    CryptoUtils.deriveSharedSecret (KeyPair.privateKey eph) pk0 = Ok dh3 /\
    CryptoUtils.deriveSharedSecret
      (KeyPair.privateKey eph)
      (SignedPreKey.publicKey (X3DH.Bundle.signedPreKey b)) = Ok dh4 /\
    X3DH.encryptMessage_secrets b p =
      (Ok (eph, [dh1; dh2; dh3; dh4]), {| session := session p; world := w1 |}) /\
    AES_encrypt m
      (CryptoUtils.deriveKey
         (CryptoUtils.combineSharedSecrets [dh1; dh2; dh3; dh4]))
      w1 = (Ok (X3DH.EncryptedMessage.encryptedMessage art), w2) /\
    X3DH.EncryptedMessage.ephemeralKey art = KeyPair.publicKey eph.

Definition PQXDH_initiator_steps {P : Primitives} (b : PQXDH.Bundle.t)
    (m : string) (p : Party PQXDH.Session.t Entropy)
    (art : PQXDH.EncryptedMessage.t) : Prop :=
  exists eph w1 w2 w3 pk0 dh1 dh2 dh3 dh4 kyberSharedSecret,
    CryptoUtils.generateKeyPair (world p) = (Ok eph, w1) /\
    nth_error (PQXDH.Bundle.preKeys b) 0 = Some pk0 /\
    CryptoUtils.deriveSharedSecret
      (KeyPair.privateKey (PQXDH.Session.identityKey (session p)))
      (PQXDH.Bundle.identityKey b) = Ok dh1 /\
    CryptoUtils.deriveSharedSecret
      (KeyPair.privateKey eph) (PQXDH.Bundle.identityKey b) = Ok dh2 /\
    CryptoUtils.deriveSharedSecret (KeyPair.privateKey eph) pk0 = Ok dh3 /\
    CryptoUtils.deriveSharedSecret
      (KeyPair.privateKey eph)
      (SignedPreKey.publicKey (PQXDH.Bundle.signedPreKey b)) = Ok dh4 /\
    MlKem1024_encap (PQXDH.Bundle.kyberPublicKey b) w1 =
      (Ok (PQXDH.EncryptedMessage.kyberCiphertext art, kyberSharedSecret), w2) /\
    PQXDH.encryptMessage_secrets b p =
      (Ok (eph, PQXDH.EncryptedMessage.kyberCiphertext art,
           [dh1; dh2; dh3; dh4; Buffer.toString_base64 kyberSharedSecret]),
       {| session := session p; world := w2 |}) /\
    AES_encrypt m
      (CryptoUtils.deriveKey
         (CryptoUtils.combineSharedSecrets
            [dh1; dh2; dh3; dh4; Buffer.toString_base64 kyberSharedSecret]))
      w2 = (Ok (PQXDH.EncryptedMessage.encryptedMessage art), w3) /\
    PQXDH.EncryptedMessage.ephemeralKey art = KeyPair.publicKey eph.

(** The third secret of the initiator's list is the DH of the ephemeral
    private key with the bundle's pre-key at index 0. *)
Definition X3DH_third_secret_from_preKey_0 {P : Primitives}
    (b : X3DH.Bundle.t) (p : Party X3DH.Session.t Entropy) : Prop :=
  exists eph secrets p1 pk0 dh3,
    X3DH.encryptMessage_secrets b p = (Ok (eph, secrets), p1) /\
    nth_error (X3DH.Bundle.preKeys b) 0 = Some pk0 /\
    CryptoUtils.deriveSharedSecret (KeyPair.privateKey eph) pk0 = Ok dh3 /\
    nth_error secrets 2 = Some dh3.

Definition PQXDH_third_secret_from_preKey_0 {P : Primitives}
    (b : PQXDH.Bundle.t) (p : Party PQXDH.Session.t Entropy) : Prop :=
  exists eph ct secrets p1 pk0 dh3,
    PQXDH.encryptMessage_secrets b p = (Ok (eph, ct, secrets), p1) /\
    nth_error (PQXDH.Bundle.preKeys b) 0 = Some pk0 /\
    CryptoUtils.deriveSharedSecret (KeyPair.privateKey eph) pk0 = Ok dh3 /\
    nth_error secrets 2 = Some dh3.

(** ** A small executable instance of the libraries

    Keys are vectors of 32 bytes; the group is the additive group of bytes,
    with "scalar multiplication" the byte-wise product modulo 256.  It has
    the algebra of the real primitives and none of their strength; it serves
    to run the protocol on concrete inputs. *)
Module Toy.

Definition byte_mul (a b : byte) : byte :=
  Buffer.byte_of_N (Byte.to_N a * Byte.to_N b).

Definition basePoint : byte := x03.

Definition scalarMult (k u : bytes) : bytes :=
  map (fun ab => byte_mul (fst ab) (snd ab)) (combine k u).

Definition scalarMultBase (k : bytes) : bytes :=
  map (fun a => byte_mul a basePoint) k.

Definition getPublicKey (sk : bytes) : result bytes :=
  if Nat.eqb (List.length sk) 32 then Ok (scalarMultBase sk) else Throw LibraryError.

Definition getSharedSecret (sk pk : bytes) : result bytes :=
  if Nat.eqb (List.length sk) 32 && Nat.eqb (List.length pk) 32
  then Ok (scalarMult sk pk)
  else Throw LibraryError.

(** The random source: a counter into a fixed sequence. *)
Definition counterBytes (n : nat) : M nat bytes :=
  fun c =>
    (Ok (map (fun i => Buffer.byte_of_N ((N.of_nat (c + i) * 2654435761 + 12345) / 65536))
            (seq 0 n)),
     (c + n)%nat).

Definition checksum (bs : bytes) : N :=
  fold_left (fun acc b => (acc * 31 + Byte.to_N b) mod 65521) bs 7.

Definition hash (bs : bytes) : bytes :=
  map (fun i => Buffer.byte_of_N (checksum bs * (N.of_nat i + 1) + N.of_nat i))
      (seq 0 64).

Fixpoint strip_prefix (p s : string) : option string :=
  match p, s with
  | EmptyString, _ => Some s
  | String a p', String b s' => if Ascii.eqb a b then strip_prefix p' s' else None
  | String _ _, EmptyString => None
  end.

Definition cipher_encrypt (message key : string) : M nat string :=
  ret (key ++ message).

Definition cipher_decrypt (c key : string) : result string :=
  match strip_prefix key c with
  | Some m => Ok m
  | None => Throw LibraryError
  end.

Definition kem_generateKeyPair : M nat (bytes * bytes) :=
  sk <- counterBytes 32 ;;
  ret (scalarMultBase sk, sk).

Definition kem_encap (pk : bytes) : M nat (bytes * bytes) :=
  r <- counterBytes 32 ;;
  if Nat.eqb (List.length pk) 32
  then ret (scalarMultBase r, scalarMult r pk)
  else throw LibraryError.

Definition kem_decap (ct sk : bytes) : result bytes :=
  getSharedSecret sk ct.

Definition primitives : Primitives :=
  {| Entropy := nat;
     randomBytes := counterBytes;
     sha512 := hash;
     x25519_getPublicKey := getPublicKey;
     x25519_getSharedSecret := getSharedSecret;
     AES_encrypt := cipher_encrypt;
     AES_decrypt := cipher_decrypt;
     MlKem1024_generateKeyPair := kem_generateKeyPair;
     MlKem1024_encap := kem_encap;
     MlKem1024_decap := kem_decap |}.

End Toy.

(** ** A run of both protocols on the executable instance

    Alice and Bob initialise their sessions, publish their bundles, and Alice
    encrypts ["hello"] to Bob.  The values are computed by running the
    definitions above; the blank records only fill the branch of a [Throw],
    which these runs do not take. *)
Module Scenario.

Definition returned {S A} (blank : A) (r : result A * S) : A :=
  match fst r with
  | Ok a => a
  | Throw _ => blank
  end.

Module Blank.
Definition keyPair : KeyPair.t :=
  {| KeyPair.publicKey := EmptyString; KeyPair.privateKey := EmptyString |}.
Definition signedPreKeyPair : SignedPreKeyPair.t :=
  {| SignedPreKeyPair.publicKey := EmptyString; SignedPreKeyPair.privateKey := EmptyString;
     SignedPreKeyPair.signature := EmptyString |}.
Definition signedPreKey : SignedPreKey.t :=
  {| SignedPreKey.publicKey := EmptyString; SignedPreKey.signature := EmptyString |}.
Definition x3dhSession : X3DH.Session.t :=
  {| X3DH.Session.identityKey := keyPair; X3DH.Session.preKeys := [];
     X3DH.Session.signedPreKey := signedPreKeyPair |}.
Definition x3dhBundle : X3DH.Bundle.t :=
  {| X3DH.Bundle.identityKey := EmptyString; X3DH.Bundle.preKeys := [];
     X3DH.Bundle.signedPreKey := signedPreKey |}.
Definition x3dhMessage : X3DH.EncryptedMessage.t :=
  {| X3DH.EncryptedMessage.encryptedMessage := EmptyString;
     X3DH.EncryptedMessage.ephemeralKey := EmptyString;
     X3DH.EncryptedMessage.usedPreKeyIndex := (-1)%Z |}.
Definition pqxdhSession : PQXDH.Session.t :=
  {| PQXDH.Session.identityKey := keyPair; PQXDH.Session.preKeys := [];
     PQXDH.Session.signedPreKey := signedPreKeyPair;
     PQXDH.Session.kyberKeyPair :=
       {| KyberKeyPair.publicKey := []; KyberKeyPair.privateKey := [] |} |}.
Definition pqxdhBundle : PQXDH.Bundle.t :=
  {| PQXDH.Bundle.identityKey := EmptyString; PQXDH.Bundle.preKeys := [];
     PQXDH.Bundle.signedPreKey := signedPreKey;
     PQXDH.Bundle.kyberPublicKey := [] |}.
Definition pqxdhMessage : PQXDH.EncryptedMessage.t :=
  {| PQXDH.EncryptedMessage.encryptedMessage := EmptyString;
     PQXDH.EncryptedMessage.ephemeralKey := EmptyString;
     PQXDH.EncryptedMessage.usedPreKeyIndex := (-1)%Z;
     PQXDH.EncryptedMessage.kyberCiphertext := [] |}.
End Blank.

Definition keyA : KeyPair.t :=
  Eval vm_compute in
    returned Blank.keyPair (CryptoUtils.generateKeyPair (P := Toy.primitives) 7%nat).

Definition keyB : KeyPair.t :=
  Eval vm_compute in
    returned Blank.keyPair (CryptoUtils.generateKeyPair (P := Toy.primitives) 70%nat).

(** X3DH *)
Definition alice : Party X3DH.Session.t nat :=
  Eval vm_compute in
    {| session :=
         returned Blank.x3dhSession
           (X3DH.initializeSession (P := Toy.primitives) 0%nat);
       world := 2000%nat |}.

Definition bob : Party X3DH.Session.t nat :=
  Eval vm_compute in
    {| session :=
         returned Blank.x3dhSession
           (X3DH.initializeSession (P := Toy.primitives) 1000%nat);
       world := 3000%nat |}.

Definition aliceBundle : X3DH.Bundle.t :=
  Eval vm_compute in
    returned Blank.x3dhBundle (X3DH.getPublicBundle (P := Toy.primitives) alice).

Definition bobBundle : X3DH.Bundle.t :=
  Eval vm_compute in
    returned Blank.x3dhBundle (X3DH.getPublicBundle (P := Toy.primitives) bob).

Definition message : X3DH.EncryptedMessage.t :=
  Eval vm_compute in
    returned Blank.x3dhMessage
      (X3DH.encryptMessage (P := Toy.primitives) bobBundle "hello" alice).

(** PQXDH *)
Definition aliceQ : Party PQXDH.Session.t nat :=
  Eval vm_compute in
    {| session :=
         returned Blank.pqxdhSession
           (PQXDH.initializeSession (P := Toy.primitives) 0%nat);
       world := 2000%nat |}.

Definition bobQ : Party PQXDH.Session.t nat :=
  Eval vm_compute in
    {| session :=
         returned Blank.pqxdhSession
           (PQXDH.initializeSession (P := Toy.primitives) 1000%nat);
       world := 3000%nat |}.

Definition aliceBundleQ : PQXDH.Bundle.t :=
  Eval vm_compute in
    returned Blank.pqxdhBundle (PQXDH.getPublicBundle (P := Toy.primitives) aliceQ).

Definition bobBundleQ : PQXDH.Bundle.t :=
  Eval vm_compute in
    returned Blank.pqxdhBundle (PQXDH.getPublicBundle (P := Toy.primitives) bobQ).

Definition messageQ : PQXDH.EncryptedMessage.t :=
  Eval vm_compute in
    returned Blank.pqxdhMessage
      (PQXDH.encryptMessage (P := Toy.primitives) bobBundleQ "hello" aliceQ).

(** Variations used to exercise the independence statements. *)

(** Alice's sessions with every private key wiped. *)
Definition wipe (k : KeyPair.t) : KeyPair.t :=
  {| KeyPair.publicKey := KeyPair.publicKey k; KeyPair.privateKey := EmptyString |}.

Definition wipeSigned (k : SignedPreKeyPair.t) : SignedPreKeyPair.t :=
  {| SignedPreKeyPair.publicKey := SignedPreKeyPair.publicKey k;
     SignedPreKeyPair.privateKey := EmptyString;
     SignedPreKeyPair.signature := SignedPreKeyPair.signature k |}.

Definition aliceWiped : Party X3DH.Session.t nat :=
  {| session :=
       {| X3DH.Session.identityKey :=
            wipe (X3DH.Session.identityKey (session alice));
          X3DH.Session.preKeys :=
            map wipe (X3DH.Session.preKeys (session alice));
          X3DH.Session.signedPreKey :=
            wipeSigned (X3DH.Session.signedPreKey (session alice)) |};
     world := 0%nat |}.

Definition aliceWipedQ : Party PQXDH.Session.t nat :=
  {| session :=
       {| PQXDH.Session.identityKey :=
            wipe (PQXDH.Session.identityKey (session aliceQ));
          PQXDH.Session.preKeys :=
            map wipe (PQXDH.Session.preKeys (session aliceQ));
          PQXDH.Session.signedPreKey :=
            wipeSigned (PQXDH.Session.signedPreKey (session aliceQ));
          PQXDH.Session.kyberKeyPair :=
            {| KyberKeyPair.publicKey :=
                 KyberKeyPair.publicKey (PQXDH.Session.kyberKeyPair (session aliceQ));
               KyberKeyPair.privateKey := [] |} |};
     world := 0%nat |}.

(** Bob's bundles cut down to what the initiator reads. *)
Definition bobBundleCut : X3DH.Bundle.t :=
  {| X3DH.Bundle.identityKey := X3DH.Bundle.identityKey bobBundle;
     X3DH.Bundle.preKeys := firstn 1 (X3DH.Bundle.preKeys bobBundle);
     X3DH.Bundle.signedPreKey :=
       {| SignedPreKey.publicKey :=
            SignedPreKey.publicKey (X3DH.Bundle.signedPreKey bobBundle);
          SignedPreKey.signature := EmptyString |} |}.

Definition bobBundleCutQ : PQXDH.Bundle.t :=
  {| PQXDH.Bundle.identityKey := PQXDH.Bundle.identityKey bobBundleQ;
     PQXDH.Bundle.preKeys := firstn 1 (PQXDH.Bundle.preKeys bobBundleQ);
     PQXDH.Bundle.signedPreKey :=
       {| SignedPreKey.publicKey :=
            SignedPreKey.publicKey (PQXDH.Bundle.signedPreKey bobBundleQ);
          SignedPreKey.signature := EmptyString |};
     PQXDH.Bundle.kyberPublicKey := PQXDH.Bundle.kyberPublicKey bobBundleQ |}.

(** Alice's bundles cut down to what the responder reads. *)
Definition aliceBundleCut : X3DH.Bundle.t :=
  {| X3DH.Bundle.identityKey := X3DH.Bundle.identityKey aliceBundle;
     X3DH.Bundle.preKeys := [];
     X3DH.Bundle.signedPreKey := Blank.signedPreKey |}.

Definition aliceBundleCutQ : PQXDH.Bundle.t :=
  {| PQXDH.Bundle.identityKey := PQXDH.Bundle.identityKey aliceBundleQ;
     PQXDH.Bundle.preKeys := [];
     PQXDH.Bundle.signedPreKey := Blank.signedPreKey;
     PQXDH.Bundle.kyberPublicKey := [] |}.

End Scenario.

(** ** Further notions used to describe the code *)

(** The public half of a key pair is the X25519 public key of its private
    half (both decoded from their base64 text). *)
Definition keyPair_consistent {P : Primitives} (privateKey publicKey : string) : Prop :=
  x25519_getPublicKey (Buffer.from_base64 privateKey) =
    Ok (Buffer.from_base64 publicKey).

(** The classical part of a PQXDH session, bundle and party: the same
    record without the Kyber fields. *)
Definition classicalSession (s : PQXDH.Session.t) : X3DH.Session.t :=
  {| X3DH.Session.identityKey := PQXDH.Session.identityKey s;
     X3DH.Session.preKeys := PQXDH.Session.preKeys s;
     X3DH.Session.signedPreKey := PQXDH.Session.signedPreKey s |}.

Definition classicalBundle (b : PQXDH.Bundle.t) : X3DH.Bundle.t :=
  {| X3DH.Bundle.identityKey := PQXDH.Bundle.identityKey b;
     X3DH.Bundle.preKeys := PQXDH.Bundle.preKeys b;
     X3DH.Bundle.signedPreKey := PQXDH.Bundle.signedPreKey b |}.

Definition classicalParty {W} (p : Party PQXDH.Session.t W)
  : Party X3DH.Session.t W :=
  {| session := classicalSession (session p); world := world p |}.

(** ** [console.log] and the demonstration drivers

    A line of the console is the list of values one [console.log] call was
    given.  The drivers run over the random source and the console; once the
    two parties exist, over the two instances as well.  A method call on a
    party runs the method on that instance and stores the instance back. *)
Module Console.

Inductive value : Type :=
| Str (s : string)
| Bool (b : bool)
| Num (n : Z).

Definition line : Type := list value.

(** Every boolean the log shows, in order. *)
Definition booleans (log : list line) : list bool :=
  flat_map
    (fun l => flat_map (fun v => match v with Bool b => [b] | _ => [] end) l)
    log.

(** The strings logged after a given label, in order. *)
Definition labelled (label : string) (log : list line) : list string :=
  flat_map
    (fun l =>
       match l with
       | [Str k; Str s] => if String.eqb k label then [s] else []
       | _ => []
       end)
    log.

End Console.

Record Process (W : Type) : Type :=
  { entropy : W; console : list Console.line }.
Arguments entropy {W} p.
Arguments console {W} p.

Record Stage (S W : Type) : Type :=
  { alice : S; bob : S; process : Process W }.
Arguments alice {S W} s.
Arguments bob {S W} s.
Arguments process {S W} s.

Inductive Who : Type := Alice | Bob.

(** [console.log(...)] before the parties exist, and after. *)
Definition log_process {W} (l : Console.line) : M (Process W) unit :=
  fun pr =>
    (Ok tt, {| entropy := entropy pr; console := (console pr ++ [l])%list |}).

Definition log {S W} (l : Console.line) : M (Stage S W) unit :=
  fun st =>
    (Ok tt,
     {| alice := alice st; bob := bob st;
        process := {| entropy := entropy (process st);
                      console := (console (process st) ++ [l])%list |} |}).

(** A constructor call: it draws from the random source. *)
Definition construct {W A} (c : M W A) : M (Process W) A :=
  fun pr =>
    match c (entropy pr) with
    | (r, w) => (r, {| entropy := w; console := console pr |})
    end.

(** The part of a driver in which [alice] and [bob] are bound. *)
Definition within {S W A} (a b : S) (c : M (Stage S W) A) : M (Process W) A :=
  fun pr =>
    match c {| alice := a; bob := b; process := pr |} with
    | (r, st) => (r, process st)
    end.

(** [who.method(...)] *)
Definition call {S W A} (who : Who) (m : M (Party S W) A) : M (Stage S W) A :=
  fun st =>
    let this := match who with Alice => alice st | Bob => bob st end in
    match m {| session := this; world := entropy (process st) |} with
    | (r, p') =>
        let pr := {| entropy := world p'; console := console (process st) |} in
        (r,
         match who with
         | Alice => {| alice := session p'; bob := bob st; process := pr |}
         | Bob => {| alice := alice st; bob := session p'; process := pr |}
         end)
    end.

Definition newline : string := String "010" EmptyString.

(** *** [src/x3dh/demo.ts] *)
Module X3DHDemo.
Section WithPrimitives.
Context {P : Primitives}.

Definition messages : list string :=
  [ "Hello Bob! This is a secret message using X3DH.";
    "Hi Alice! Thanks for the message. How are you?";
    "I'm doing great! Working on some encryption protocols.";
    "That's fascinating! Tell me more about it.";
    "It's using X3DH with Double Ratchet for perfect forward secrecy." ].

(** The body of [for (let i = 0; i < messages.length; i++)], from index [i]
    on; [rest] is [messages.slice(i)]. *)
Fixpoint conversation (aliceBundle bobBundle : X3DH.Bundle.t)
    (i : Z) (rest : list string) : M (Stage X3DH.Session.t Entropy) unit :=
  match rest with
  | [] => ret tt
  | message :: rest' =>
      let isAlice := (i mod 2 =? 0)%Z in
      let sender := if isAlice then Alice else Bob in
      let recipient := if isAlice then Bob else Alice in
      let senderBundle := if isAlice then aliceBundle else bobBundle in
      let recipientBundle := if isAlice then bobBundle else aliceBundle in
      _ <- log [Console.Str ((if isAlice then "Alice" else "Bob")
                               ++ " is sending a message...")] ;;
      _ <- log [Console.Str "Original message:"; Console.Str message] ;;
      (* Encrypt the message *)
      encryptedMessage <-
        call sender (X3DH.encryptMessage recipientBundle message) ;;
      _ <- log [Console.Str "Message encrypted with new ratcheted key"] ;;
      _ <- log [Console.Str "Ephemeral key:";
                Console.Str (X3DH.EncryptedMessage.ephemeralKey encryptedMessage)] ;;
      _ <- log [Console.Str "Used pre-key index:";
                Console.Num (X3DH.EncryptedMessage.usedPreKeyIndex encryptedMessage)] ;;
      (* Decrypt the message *)
      decryptedMessage <-
        call recipient
          (X3DH.decryptMessage senderBundle
             (X3DH.EncryptedMessage.encryptedMessage encryptedMessage)
             (X3DH.EncryptedMessage.ephemeralKey encryptedMessage)
             (X3DH.EncryptedMessage.usedPreKeyIndex encryptedMessage)) ;;
      _ <- log [Console.Str "Message decrypted successfully"] ;;
      _ <- log [Console.Str "Decrypted message:"; Console.Str decryptedMessage] ;;
      _ <- log [Console.Str "Messages match:";
                Console.Bool (String.eqb message decryptedMessage)] ;;
      _ <- log [Console.Str ("Key ratcheting completed for this message" ++ newline)] ;;
      conversation aliceBundle bobBundle (i + 1) rest'
  end.

Definition main : M (Process Entropy) unit :=
  _ <- log_process
         [Console.Str ("Starting X3DH Demo with Double Ratchet Messaging..."
                         ++ newline)] ;;
  (* Initialize X3DH sessions for both parties *)
  alice <- construct X3DH.initializeSession ;;
  bob <- construct X3DH.initializeSession ;;
  within alice bob
    (_ <- log [Console.Str ("Alice and Bob have initialized their X3DH sessions"
                              ++ newline)] ;;
     (* Bob shares his public bundle with Alice *)
     bobBundle <- call Bob X3DH.getPublicBundle ;;
     _ <- log [Console.Str ("Bob has shared his public bundle with Alice"
                              ++ newline)] ;;
     (* Alice shares her public bundle with Bob *)
     aliceBundle <- call Alice X3DH.getPublicBundle ;;
     _ <- log [Console.Str ("Alice has shared her public bundle with Bob"
                              ++ newline)] ;;
     (* Generate and compare safety numbers *)
     let aliceSafetyNumber :=
       CryptoUtils.generateSafetyNumber
         (X3DH.Bundle.identityKey aliceBundle) (X3DH.Bundle.identityKey bobBundle) in
     let bobSafetyNumber :=
       CryptoUtils.generateSafetyNumber
         (X3DH.Bundle.identityKey bobBundle) (X3DH.Bundle.identityKey aliceBundle) in
     _ <- log [Console.Str "Safety Number Verification:"] ;;
     _ <- log [Console.Str "Alice's safety number:"; Console.Str aliceSafetyNumber] ;;
     _ <- log [Console.Str "Bob's safety number:"; Console.Str bobSafetyNumber] ;;
     _ <- log [Console.Str "Safety numbers match:";
               Console.Bool (String.eqb aliceSafetyNumber bobSafetyNumber);
               Console.Str newline] ;;
     _ <- log [Console.Str ("Starting encrypted conversation with key ratcheting..."
                              ++ newline)] ;;
     _ <- conversation aliceBundle bobBundle 0 messages ;;
     _ <- log [Console.Str "Conversation completed successfully!"] ;;
     _ <- log [Console.Str
                 "All messages were encrypted and decrypted with perfect forward secrecy"] ;;
     log [Console.Str
            "Each message used a new ratcheted key, ensuring security even if previous keys are compromised"]).

End WithPrimitives.
End X3DHDemo.

(** *** The PQXDH demonstration ([main] after the [X3DH] class) *)
Module PQXDHDemo.
Section WithPrimitives.
Context {P : Primitives}.

Definition messages : list string :=
  [ "Hello Bob! This is a quantum-resistant secret message.";
    "Hi Alice! Thanks for the message. How are you?";
    "I'm doing great! Working on some quantum-resistant encryption.";
    "That's fascinating! Tell me more about it.";
    "It's using PQXDH with Double Ratchet for perfect forward secrecy." ].

Fixpoint conversation (aliceBundle bobBundle : PQXDH.Bundle.t)
    (i : Z) (rest : list string) : M (Stage PQXDH.Session.t Entropy) unit :=
  match rest with
  | [] => ret tt
  | message :: rest' =>
      let isAlice := (i mod 2 =? 0)%Z in
      let sender := if isAlice then Alice else Bob in
      let recipient := if isAlice then Bob else Alice in
      let senderBundle := if isAlice then aliceBundle else bobBundle in
      let recipientBundle := if isAlice then bobBundle else aliceBundle in
      _ <- log [Console.Str newline] ;;
      _ <- log [Console.Str "--------------------------------"] ;;
      _ <- log [Console.Str ((if isAlice then "Alice" else "Bob")
                               ++ " is sending a message...")] ;;
      _ <- log [Console.Str "Original message:"; Console.Str message] ;;
      (* Encrypt the message *)
      encryptedMessage <-
        call sender (PQXDH.encryptMessage recipientBundle message) ;;
      _ <- log [Console.Str "Message encrypted with new ratcheted key"] ;;
      (* Decrypt the message *)
      decryptedMessage <-
        call recipient
          (PQXDH.decryptMessage senderBundle
             (PQXDH.EncryptedMessage.encryptedMessage encryptedMessage)
             (PQXDH.EncryptedMessage.ephemeralKey encryptedMessage)
             (PQXDH.EncryptedMessage.usedPreKeyIndex encryptedMessage)
             (PQXDH.EncryptedMessage.kyberCiphertext encryptedMessage)) ;;
      _ <- log [Console.Str "Message decrypted successfully"] ;;
      _ <- log [Console.Str "Decrypted message:"; Console.Str decryptedMessage] ;;
      _ <- log [Console.Str "Messages match:";
                Console.Bool (String.eqb message decryptedMessage)] ;;
      _ <- log [Console.Str "Key ratcheting completed for this message"] ;;
      _ <- log [Console.Str ("--------------------------------" ++ newline)] ;;
      conversation aliceBundle bobBundle (i + 1) rest'
  end.

Definition main : M (Process Entropy) unit :=
  _ <- log_process
         [Console.Str ("Starting PQXDH Demo with Double Ratchet Messaging..."
                         ++ newline)] ;;
  (* Initialize PQXDH sessions for both parties *)
  alice <- construct PQXDH.initializeSession ;;
  bob <- construct PQXDH.initializeSession ;;
  within alice bob
    (_ <- log [Console.Str ("Alice and Bob have initialized their PQXDH sessions"
                              ++ newline)] ;;
     (* Bob shares his public bundle with Alice *)
     bobBundle <- call Bob PQXDH.getPublicBundle ;;
     _ <- log [Console.Str ("Bob has shared his public bundle with Alice"
                              ++ newline)] ;;
     (* Alice shares her public bundle with Bob *)
     aliceBundle <- call Alice PQXDH.getPublicBundle ;;
     _ <- log [Console.Str ("Alice has shared her public bundle with Bob"
                              ++ newline)] ;;
     (* Generate and compare safety numbers *)
     let aliceSafetyNumber :=
       CryptoUtils.generateSafetyNumber
         (PQXDH.Bundle.identityKey aliceBundle) (PQXDH.Bundle.identityKey bobBundle) in
     let bobSafetyNumber :=
       CryptoUtils.generateSafetyNumber
         (PQXDH.Bundle.identityKey bobBundle) (PQXDH.Bundle.identityKey aliceBundle) in
     _ <- log [Console.Str "Safety Number Verification:"] ;;
     _ <- log [Console.Str "Alice's safety number:"; Console.Str aliceSafetyNumber] ;;
     _ <- log [Console.Str "Bob's safety number:"; Console.Str bobSafetyNumber] ;;
     _ <- log [Console.Str "Safety numbers match:";
               Console.Bool (String.eqb aliceSafetyNumber bobSafetyNumber);
               Console.Str newline] ;;
     _ <- log [Console.Str ("Starting encrypted conversation with key ratcheting..."
                              ++ newline)] ;;
     _ <- conversation aliceBundle bobBundle 0 messages ;;
     _ <- log [Console.Str "Conversation completed successfully!"] ;;
     _ <- log [Console.Str
                 "All messages were encrypted and decrypted with perfect forward secrecy"] ;;
     log [Console.Str
            "Each message used a new ratcheted key, ensuring security even if previous keys are compromised"]).

End WithPrimitives.
End PQXDHDemo.

(** A party's bundle, whatever the state of the random source. *)
Definition X3DH_publishes {P : Primitives} (s : X3DH.Session.t)
    (b : X3DH.Bundle.t) : Prop :=
  forall w : Entropy,
    X3DH.getPublicBundle {| session := s; world := w |} =
      (Ok b, {| session := s; world := w |}).

Definition PQXDH_publishes {P : Primitives} (s : PQXDH.Session.t)
    (b : PQXDH.Bundle.t) : Prop :=
  forall w : Entropy,
    PQXDH.getPublicBundle {| session := s; world := w |} =
      (Ok b, {| session := s; world := w |}).

(** What [initializeSession] establishes: ten pre-keys, consistent key
    pairs throughout, and a signature that is the SHA-512 digest of the
    identity private key bytes followed by the signed pre-key's public key
    bytes. *)
Definition session_material {P : Primitives} (identityKey : KeyPair.t)
    (preKeys : list KeyPair.t) (signedPreKey : SignedPreKeyPair.t) : Prop :=
  List.length preKeys = 10%nat /\
  keyPair_consistent
    (KeyPair.privateKey identityKey) (KeyPair.publicKey identityKey) /\
  (forall k, In k preKeys ->
     keyPair_consistent (KeyPair.privateKey k) (KeyPair.publicKey k)) /\
  keyPair_consistent
    (SignedPreKeyPair.privateKey signedPreKey)
    (SignedPreKeyPair.publicKey signedPreKey) /\
  Buffer.from_base64 (SignedPreKeyPair.signature signedPreKey) =
    sha512
      (Buffer.from_base64 (KeyPair.privateKey identityKey) ++
       Buffer.from_base64 (SignedPreKeyPair.publicKey signedPreKey))%list.

(** ** Outcomes of the two methods once the DH values exist *)





(** The PQXDH secret lists are the X3DH lists of the classical parts with
    the KEM secret appended, for the initiator and for the responder. *)
Definition initiator_extends_X3DH {P : Primitives} (b : PQXDH.Bundle.t)
    (p p' : Party PQXDH.Session.t Entropy) (eph : KeyPair.t) (ct : bytes)
    (secrets : list string) : Prop :=
  exists w1 ss,
    X3DH.encryptMessage_secrets (classicalBundle b) (classicalParty p) =
      (Ok (eph, firstn 4 secrets),
       {| session := classicalSession (session p); world := w1 |}) /\
    MlKem1024_encap (PQXDH.Bundle.kyberPublicKey b) w1 =
      (Ok (ct, ss), world p') /\
    secrets = (firstn 4 secrets ++ [Buffer.toString_base64 ss])%list.

Definition responder_extends_X3DH {P : Primitives} (b : PQXDH.Bundle.t)
    (e : string) (i : Z) (k : bytes) (p : Party PQXDH.Session.t Entropy)
    (secrets : list string) : Prop :=
  exists ss,
    X3DH.decryptMessage_secrets (classicalBundle b) e i (classicalParty p) =
      (Ok (firstn 4 secrets), classicalParty p) /\
    MlKem1024_decap k
      (KyberKeyPair.privateKey (PQXDH.Session.kyberKeyPair (session p))) =
      Ok ss /\
    secrets = (firstn 4 secrets ++ [Buffer.toString_base64 ss])%list.

(** ** Further runs on the executable instance *)
Module Runs.


(** The secrets of Alice's PQXDH call in [Scenario], and Bob's. *)
Definition secretsQ : KeyPair.t * bytes * list string :=
  Eval vm_compute in
    Scenario.returned (Scenario.Blank.keyPair, [], [])
      (PQXDH.encryptMessage_secrets (P := Toy.primitives)
         Scenario.bobBundleQ Scenario.aliceQ).

Definition secretsBobQ : list string :=
  Eval vm_compute in
    Scenario.returned []
      (PQXDH.decryptMessage_secrets (P := Toy.primitives)
         Scenario.aliceBundleQ
         (PQXDH.EncryptedMessage.ephemeralKey Scenario.messageQ) 0
         (PQXDH.EncryptedMessage.kyberCiphertext Scenario.messageQ)
         Scenario.bobQ).



(** The two demonstrations, from an empty console. *)
Definition start : Process nat := {| entropy := 0%nat; console := [] |}.

Definition finish : Process nat :=
  Eval vm_compute in snd (X3DHDemo.main (P := Toy.primitives) start).

Definition finishQ : Process nat :=
  Eval vm_compute in snd (PQXDHDemo.main (P := Toy.primitives) start).

End Runs.

(** * Facts *)

(** ** The base64 codec *)

Ltac Zify.zify_post_hook ::= Z.to_euclidean_division_equations.

Lemma to_N_lt (b : byte) : Byte.to_N b < 256.
Proof. pose proof (Byte.to_N_bounded b). lia. Qed.

Lemma byte_of_to_N (b : byte) : Buffer.byte_of_N (Byte.to_N b) = b.
Proof.
  unfold Buffer.byte_of_N.
  rewrite N.mod_small by apply to_N_lt.
  now rewrite Byte.of_to_N.
Qed.

Lemma byte_of_N_eq (n : N) (b : byte) : n = Byte.to_N b -> Buffer.byte_of_N n = b.
Proof. intros ->. apply byte_of_to_N. Qed.

Lemma to_N_byte_of_N (n : N) : Byte.to_N (Buffer.byte_of_N n) = n mod 256.
Proof.
  unfold Buffer.byte_of_N.
  destruct (Byte.of_N (n mod 256)) as [b|] eqn:E.
  - now apply Byte.to_of_N.
  - apply Byte.of_N_None_iff in E.
    pose proof (N.mod_upper_bound n 256). lia.
Qed.

Lemma base64_char_sound (n : N) :
  n < 64 ->
  Buffer.unbase64 (Buffer.base64_char n) = Some n /\
  Ascii.eqb (Buffer.base64_char n) "=" = false.
Proof.
  intros Hn.
  assert (H : forall k : nat, (k < 64)%nat ->
            Buffer.unbase64 (Buffer.base64_char (N.of_nat k)) = Some (N.of_nat k) /\
            Ascii.eqb (Buffer.base64_char (N.of_nat k)) "=" = false).
  { intros k Hk.
    do 64 (destruct k as [|k]; [vm_compute; split; reflexivity|]).
    lia. }
  rewrite <- (N2Nat.id n). apply H. lia.
Qed.

Lemma sextets_cons (n : N) (s : string) :
  n < 64 ->
  Buffer.sextets (String (Buffer.base64_char n) s) = n :: Buffer.sextets s.
Proof.
  intros Hn. destruct (base64_char_sound n Hn) as [Hu He].
  cbn [Buffer.sextets]. now rewrite He, Hu.
Qed.

Lemma sextets_padding (s : string) : Buffer.sextets (String "=" s) = [].
Proof. reflexivity. Qed.

(** Induction three bytes at a time, as the encoder consumes its input. *)
Lemma bytes_ind3 (Q : bytes -> Prop) :
  Q [] ->
  (forall a, Q [a]) ->
  (forall a b, Q [a; b]) ->
  (forall a b c rest, Q rest -> Q (a :: b :: c :: rest)) ->
  forall bs, Q bs.
Proof.
  intros H0 H1 H2 H3.
  fix IH 1.
  intros [|a [|b [|c rest]]].
  - exact H0.
  - apply H1.
  - apply H2.
  - apply H3, IH.
Qed.

(** Decoding inverts encoding: [Buffer.from(buf.toString("base64"), "base64")]
    has the bytes of [buf]. *)
Lemma from_base64_toString_base64 (bs : bytes) :
  Buffer.from_base64 (Buffer.toString_base64 bs) = bs.
Proof.
  unfold Buffer.from_base64.
  induction bs as [|a|a b|a b c rest IH] using bytes_ind3.
  - reflexivity.
  - pose proof (to_N_lt a).
    cbn [Buffer.toString_base64].
    rewrite !sextets_cons by lia. rewrite sextets_padding.
    cbn [Buffer.unpack]. f_equal. apply byte_of_N_eq. lia.
  - pose proof (to_N_lt a). pose proof (to_N_lt b).
    cbn [Buffer.toString_base64].
    rewrite !sextets_cons by lia. rewrite sextets_padding.
    cbn [Buffer.unpack]. repeat f_equal; apply byte_of_N_eq; lia.
  - pose proof (to_N_lt a). pose proof (to_N_lt b). pose proof (to_N_lt c).
    cbn [Buffer.toString_base64].
    rewrite !sextets_cons by lia.
    cbn [Buffer.unpack]. rewrite IH.
    repeat f_equal; apply byte_of_N_eq; lia.
Qed.

(** ** Running computations *)

Lemma bind_Ok {S A B} (c : M S A) (k : A -> M S B) s b s' :
  bind c k s = (Ok b, s') ->
  exists a s1, c s = (Ok a, s1) /\ k a s1 = (Ok b, s').
Proof.
  unfold bind. destruct (c s) as [[a|e] s1]; intros H.
  - now exists a, s1.
  - discriminate.
Qed.

Lemma bind_run {S A B} (c : M S A) (k : A -> M S B) s a s1 :
  c s = (Ok a, s1) -> bind c k s = k a s1.
Proof. unfold bind. now intros ->. Qed.

Lemma ret_Ok {S A} (a b : A) (s s' : S) :
  ret a s = (Ok b, s') -> b = a /\ s' = s.
Proof. unfold ret. intros H. now inversion H. Qed.

Lemma liftR_Ok {S A} (r : result A) (a : A) (s s' : S) :
  liftR r s = (Ok a, s') -> r = Ok a /\ s' = s.
Proof. unfold liftR. intros H. now inversion H. Qed.

Lemma this_session_Ok {S W} (p p' : Party S W) (x : S) :
  this_session p = (Ok x, p') -> x = session p /\ p' = p.
Proof. unfold this_session. intros H. now inversion H. Qed.

Lemma liftW_Ok {S W A} (c : M W A) (p p' : Party S W) (a : A) :
  liftW c p = (Ok a, p') ->
  exists w', c (world p) = (Ok a, w') /\ p' = {| session := session p; world := w' |}.
Proof.
  unfold liftW. destruct (c (world p)) as [r w'] eqn:E. intros H.
  inversion H; subst. now exists w'.
Qed.

Lemma liftW_run {S W A} (c : M W A) (x : S) (w w' : W) (r : result A) :
  c w = (r, w') ->
  liftW c {| session := x; world := w |} = (r, {| session := x; world := w' |}).
Proof. unfold liftW. cbn. now intros ->. Qed.

(** Take a successful run apart, one call at a time. *)
Ltac invM :=
  repeat match goal with
  | H : bind _ _ _ = (Ok _, _) |- _ =>
      apply bind_Ok in H; destruct H as (? & ? & ? & H)
  | H : ret _ _ = (Ok _, _) |- _ =>
      apply ret_Ok in H; destruct H as [H ?]; inversion H; clear H; subst
  | H : liftR _ _ = (Ok _, _) |- _ =>
      apply liftR_Ok in H; destruct H as [? ?]; subst
  | H : this_session _ = (Ok _, _) |- _ =>
      apply this_session_Ok in H; destruct H as [? ?]; subst
  | H : liftW _ _ = (Ok _, _) |- _ =>
      apply liftW_Ok in H; destruct H as (? & ? & ?); subst
  | H : throw _ _ = (Ok _, _) |- _ => discriminate H
  | H : (let '(_, _) := ?x in _) _ = (Ok _, _) |- _ => destruct x
  | H : (match ?o with Some _ => _ | None => _ end) _ = (Ok _, _) |- _ =>
      destruct o eqn:?
  end.

(** ** Frame rules: what keeps [this.session] *)

Lemma preserves_ret {S W A} (a : A) : preserves_session (S := S) (W := W) (ret a).
Proof. intros p. reflexivity. Qed.

Lemma preserves_throw {S W A} (e : exn) :
  preserves_session (S := S) (W := W) (A := A) (throw e).
Proof. intros p. reflexivity. Qed.

Lemma preserves_liftR {S W A} (r : result A) :
  preserves_session (S := S) (W := W) (liftR r).
Proof. intros p. reflexivity. Qed.

Lemma preserves_this_session {S W} : preserves_session (@this_session S W).
Proof. intros p. reflexivity. Qed.

Lemma preserves_liftW {S W A} (c : M W A) : preserves_session (S := S) (liftW c).
Proof. intros p. unfold liftW. now destruct (c (world p)). Qed.

Lemma preserves_bind {S W A B} (c : M (Party S W) A) (k : A -> M (Party S W) B) :
  preserves_session c ->
  (forall a, preserves_session (k a)) ->
  preserves_session (bind c k).
Proof.
  intros Hc Hk p. unfold bind.
  specialize (Hc p). destruct (c p) as [[a|e] p1]; cbn in *.
  - now rewrite Hk.
  - exact Hc.
Qed.

Lemma preserves_option {S W A B} (o : option B)
    (f : B -> M (Party S W) A) (d : M (Party S W) A) :
  (forall b, preserves_session (f b)) ->
  preserves_session d ->
  preserves_session (match o with Some b => f b | None => d end).
Proof. intros Hf Hd. now destruct o. Qed.

Lemma preserves_pair {S W A B C} (x : B * C) (f : B -> C -> M (Party S W) A) :
  (forall b c, preserves_session (f b c)) ->
  preserves_session (let '(b, c) := x in f b c).
Proof. intros Hf. now destruct x. Qed.

Create HintDb frame.
#[export] Hint Resolve preserves_ret preserves_throw preserves_liftR
  preserves_this_session preserves_liftW : frame.

Ltac frame :=
  repeat first
    [ apply preserves_bind; [|intros ?]
    | apply preserves_option; [intros ?|]
    | apply preserves_pair; intros ? ?
    | solve [auto with frame] ].

Lemma X3DH_getPublicBundle_frame {P : Primitives} :
  preserves_session X3DH.getPublicBundle.
Proof. unfold X3DH.getPublicBundle. frame. Qed.

Lemma X3DH_encryptMessage_frame {P : Primitives} b m :
  preserves_session (X3DH.encryptMessage b m).
Proof. unfold X3DH.encryptMessage. frame. Qed.

Lemma X3DH_decryptMessage_frame {P : Primitives} b c e i :
  preserves_session (X3DH.decryptMessage b c e i).
Proof. unfold X3DH.decryptMessage. frame. Qed.

Lemma PQXDH_getPublicBundle_frame {P : Primitives} :
  preserves_session PQXDH.getPublicBundle.
Proof. unfold PQXDH.getPublicBundle. frame. Qed.

Lemma PQXDH_encryptMessage_frame {P : Primitives} b m :
  preserves_session (PQXDH.encryptMessage b m).
Proof. unfold PQXDH.encryptMessage. frame. Qed.

Lemma PQXDH_decryptMessage_frame {P : Primitives} b c e i k :
  preserves_session (PQXDH.decryptMessage b c e i k).
Proof. unfold PQXDH.decryptMessage. frame. Qed.

(** C8: [getPublicBundle], [encryptMessage] and [decryptMessage], of [X3DH]
    and of [PQXDH], leave the party's session (identity key pair, pre-key
    pairs, signed pre-key pair, Kyber key pair) exactly as it was before the
    call, whether the call returns or throws. *)
Theorem C8_session_unchanged {P : Primitives} :
  (forall p, session (snd (X3DH.getPublicBundle p)) = session p) /\
  (forall b m p, session (snd (X3DH.encryptMessage b m p)) = session p) /\
  (forall b c e i p, session (snd (X3DH.decryptMessage b c e i p)) = session p) /\
  (forall p, session (snd (PQXDH.getPublicBundle p)) = session p) /\
  (forall b m p, session (snd (PQXDH.encryptMessage b m p)) = session p) /\
  (forall b c e i k p,
      session (snd (PQXDH.decryptMessage b c e i k p)) = session p).
Proof.
  split; [|split; [|split; [|split; [|split]]]]; intros.
  - apply X3DH_getPublicBundle_frame.
  - apply X3DH_encryptMessage_frame.
  - apply X3DH_decryptMessage_frame.
  - apply PQXDH_getPublicBundle_frame.
  - apply PQXDH_encryptMessage_frame.
  - apply PQXDH_decryptMessage_frame.
Qed.

(** ** The safety number *)

Lemma orderKeys_sym (key1 key2 : string) :
  CryptoUtils.orderKeys key1 key2 = CryptoUtils.orderKeys key2 key1.
Proof.
  unfold CryptoUtils.orderKeys, String.ltb.
  rewrite (String.compare_antisym key1 key2).
  destruct (String.compare key2 key1) eqn:E; cbn; try reflexivity.
  apply String.compare_eq_iff in E. now subst.
Qed.

Lemma orderKeys_sorted (key1 key2 : string) :
  (fst (CryptoUtils.orderKeys key1 key2)
   <=? snd (CryptoUtils.orderKeys key1 key2))%string = true.
Proof.
  unfold CryptoUtils.orderKeys, String.ltb, String.leb.
  destruct (String.compare key1 key2) eqn:E; cbn.
  - rewrite String.compare_antisym, E. reflexivity.
  - now rewrite E.
  - rewrite String.compare_antisym, E. reflexivity.
Qed.

(** C4: the safety number is symmetric in its two keys. *)
Theorem C4_generateSafetyNumber_symmetric {P : Primitives} (k1 k2 : string) :
  CryptoUtils.generateSafetyNumber k1 k2 = CryptoUtils.generateSafetyNumber k2 k1.
Proof.
  unfold CryptoUtils.generateSafetyNumber, CryptoUtils.combinedKeys.
  now rewrite (orderKeys_sym k1 k2).
Qed.

(** C5, as the code has it: the key put first in the hashed concatenation
    is the one whose base64 text is the smaller in the order of JavaScript
    strings (character codes, left to right); the two decoded keys are
    concatenated in that order, hashed, and the first 12 characters of the
    digest's base64 text are returned. *)
Theorem C5_generateSafetyNumber_text_order {P : Primitives} (k1 k2 : string) :
  exists firstKey secondKey,
    ((firstKey = k1 /\ secondKey = k2) \/ (firstKey = k2 /\ secondKey = k1)) /\
    (firstKey <=? secondKey)%string = true /\
    CryptoUtils.combinedKeys k1 k2 =
      (Buffer.from_base64 firstKey ++ Buffer.from_base64 secondKey)%list /\
    CryptoUtils.generateSafetyNumber k1 k2 =
      substring 0 12
        (Buffer.toString_base64
           (sha512 (Buffer.from_base64 firstKey ++ Buffer.from_base64 secondKey)%list)).
Proof.
  pose proof (orderKeys_sorted k1 k2) as Hs.
  unfold CryptoUtils.generateSafetyNumber, CryptoUtils.combinedKeys.
  unfold CryptoUtils.orderKeys in *.
  destruct (k1 <? k2)%string; cbn in Hs.
  - exists k1, k2. auto.
  - exists k2, k1. auto.
Qed.

(** C5, the claim as worded, fails: of the keys [00..00] and [ff..ff]
    (32 bytes each) the code puts [ff..ff] first, because ["/"] precedes
    ["A"] among characters although it stands for a larger digit. *)
Lemma C5_bytewise_order_counterexample :
  Buffer.from_base64 "AAAAAAAAAAAAAAAAAAAAAAAAAAAAAAAAAAAAAAAAAAA=" = repeat x00 32 /\
  Buffer.from_base64 "//////////////////////////////////////////8=" = repeat xff 32 /\
  CryptoUtils.combinedKeys
    "AAAAAAAAAAAAAAAAAAAAAAAAAAAAAAAAAAAAAAAAAAA="
    "//////////////////////////////////////////8=" =
    (repeat xff 32 ++ repeat x00 32)%list /\
  ~ first_is_bytewise_smaller
      "AAAAAAAAAAAAAAAAAAAAAAAAAAAAAAAAAAAAAAAAAAA="
      "//////////////////////////////////////////8=".
Proof.
  split; [reflexivity|]. split; [reflexivity|]. split; [reflexivity|].
  intros (f & s & [[-> ->]|[-> ->]] & Hle & Hc).
  - vm_compute in Hc. discriminate Hc.
  - vm_compute in Hle. discriminate Hle.
Qed.

(** ** The public bundle *)

(** C9: [getPublicBundle] returns the public projection of the session:
    the identity public key, the pre-key public keys in the session's order
    (as many as the session has pre-keys), the signed pre-key's public key
    and signature, and for PQXDH the Kyber public key.  No private key flows
    into it: two sessions with the same public components, whatever their
    private keys, publish the same bundle. *)
Theorem C9_getPublicBundle_public_projection {P : Primitives} :
  (forall p : Party X3DH.Session.t Entropy,
    exists b,
      X3DH.getPublicBundle p = (Ok b, p) /\
      X3DH.Bundle.identityKey b =
        KeyPair.publicKey (X3DH.Session.identityKey (session p)) /\
      List.length (X3DH.Bundle.preKeys b) =
        List.length (X3DH.Session.preKeys (session p)) /\
      (forall i,
        nth_error (X3DH.Bundle.preKeys b) i =
        option_map KeyPair.publicKey (nth_error (X3DH.Session.preKeys (session p)) i)) /\
      SignedPreKey.publicKey (X3DH.Bundle.signedPreKey b) =
        SignedPreKeyPair.publicKey (X3DH.Session.signedPreKey (session p)) /\
      SignedPreKey.signature (X3DH.Bundle.signedPreKey b) =
        SignedPreKeyPair.signature (X3DH.Session.signedPreKey (session p)) /\
      (forall q : Party X3DH.Session.t Entropy,
        KeyPair.publicKey (X3DH.Session.identityKey (session q)) =
          KeyPair.publicKey (X3DH.Session.identityKey (session p)) ->
        map KeyPair.publicKey (X3DH.Session.preKeys (session q)) =
          map KeyPair.publicKey (X3DH.Session.preKeys (session p)) ->
        SignedPreKeyPair.publicKey (X3DH.Session.signedPreKey (session q)) =
          SignedPreKeyPair.publicKey (X3DH.Session.signedPreKey (session p)) ->
        SignedPreKeyPair.signature (X3DH.Session.signedPreKey (session q)) =
          SignedPreKeyPair.signature (X3DH.Session.signedPreKey (session p)) ->
        fst (X3DH.getPublicBundle q) = Ok b)) /\
  (forall p : Party PQXDH.Session.t Entropy,
    exists b,
      PQXDH.getPublicBundle p = (Ok b, p) /\
      PQXDH.Bundle.identityKey b =
        KeyPair.publicKey (PQXDH.Session.identityKey (session p)) /\
      List.length (PQXDH.Bundle.preKeys b) =
        List.length (PQXDH.Session.preKeys (session p)) /\
      (forall i,
        nth_error (PQXDH.Bundle.preKeys b) i =
        option_map KeyPair.publicKey (nth_error (PQXDH.Session.preKeys (session p)) i)) /\
      SignedPreKey.publicKey (PQXDH.Bundle.signedPreKey b) =
        SignedPreKeyPair.publicKey (PQXDH.Session.signedPreKey (session p)) /\
      SignedPreKey.signature (PQXDH.Bundle.signedPreKey b) =
        SignedPreKeyPair.signature (PQXDH.Session.signedPreKey (session p)) /\
      PQXDH.Bundle.kyberPublicKey b =
        KyberKeyPair.publicKey (PQXDH.Session.kyberKeyPair (session p)) /\
      (forall q : Party PQXDH.Session.t Entropy,
        KeyPair.publicKey (PQXDH.Session.identityKey (session q)) =
          KeyPair.publicKey (PQXDH.Session.identityKey (session p)) ->
        map KeyPair.publicKey (PQXDH.Session.preKeys (session q)) =
          map KeyPair.publicKey (PQXDH.Session.preKeys (session p)) ->
        SignedPreKeyPair.publicKey (PQXDH.Session.signedPreKey (session q)) =
          SignedPreKeyPair.publicKey (PQXDH.Session.signedPreKey (session p)) ->
        SignedPreKeyPair.signature (PQXDH.Session.signedPreKey (session q)) =
          SignedPreKeyPair.signature (PQXDH.Session.signedPreKey (session p)) ->
        KyberKeyPair.publicKey (PQXDH.Session.kyberKeyPair (session q)) =
          KyberKeyPair.publicKey (PQXDH.Session.kyberKeyPair (session p)) ->
        fst (PQXDH.getPublicBundle q) = Ok b)).
Proof.
  split; intros p; eexists; (split; [reflexivity|]); cbn.
  - repeat split.
    + apply length_map.
    + intros i. apply nth_error_map.
    + intros q H1 H2 H3 H4. unfold X3DH.getPublicBundle. cbn.
      now rewrite H1, H2, H3, H4.
  - repeat split.
    + apply length_map.
    + intros i. apply nth_error_map.
    + intros q H1 H2 H3 H4 H5. unfold PQXDH.getPublicBundle. cbn.
      now rewrite H1, H2, H3, H4, H5.
Qed.

(** ** The responder *)

Lemma js_index_outside {A} (arr : list A) (i : Z) :
  List.length arr = 10%nat ->
  (i < 0 \/ 9 < i)%Z ->
  js_index arr i = None.
Proof.
  intros Hlen Hi. unfold js_index.
  destruct (0 <=? i)%Z eqn:E; [|reflexivity].
  apply nth_error_None. apply Z.leb_le in E. lia.
Qed.

(** C7: with a session of 10 pre-keys and a [usedPreKeyIndex] outside 0..9,
    [decryptMessage] (of [X3DH] and of [PQXDH]) throws; it returns no
    plaintext. *)
Theorem C7_decryptMessage_index_out_of_range {P : Primitives} (i : Z) :
  (i < 0 \/ 9 < i)%Z ->
  (forall (p : Party X3DH.Session.t Entropy) b c e,
      List.length (X3DH.Session.preKeys (session p)) = 10%nat ->
      exists err, X3DH.decryptMessage b c e i p = (Throw err, p)) /\
  (forall (p : Party PQXDH.Session.t Entropy) b c e k,
      List.length (PQXDH.Session.preKeys (session p)) = 10%nat ->
      exists err, PQXDH.decryptMessage b c e i k p = (Throw err, p)).
Proof.
  intros Hi. split.
  - intros p b c e Hlen.
    unfold X3DH.decryptMessage, bind, this_session, liftR, throw.
    rewrite (js_index_outside _ i Hlen Hi).
    repeat match goal with
           | |- context [CryptoUtils.deriveSharedSecret ?a ?b] =>
               destruct (CryptoUtils.deriveSharedSecret a b)
           end; eauto.
  - intros p b c e k Hlen.
    unfold PQXDH.decryptMessage, bind, this_session, liftR, throw.
    rewrite (js_index_outside _ i Hlen Hi).
    repeat match goal with
           | |- context [CryptoUtils.deriveSharedSecret ?a ?b] =>
               destruct (CryptoUtils.deriveSharedSecret a b)
           end; eauto.
Qed.

(** C10: [decryptMessage] reads nothing of the sender's bundle but its
    [identityKey]: with the other arguments fixed, two bundles that agree on
    that field give the same result. *)
Theorem C10_decryptMessage_reads_identityKey_only {P : Primitives} :
  (forall (b1 b2 : X3DH.Bundle.t) c e i (p : Party X3DH.Session.t Entropy),
      X3DH.Bundle.identityKey b1 = X3DH.Bundle.identityKey b2 ->
      X3DH.decryptMessage b1 c e i p = X3DH.decryptMessage b2 c e i p) /\
  (forall (b1 b2 : PQXDH.Bundle.t) c e i k (p : Party PQXDH.Session.t Entropy),
      PQXDH.Bundle.identityKey b1 = PQXDH.Bundle.identityKey b2 ->
      PQXDH.decryptMessage b1 c e i k p = PQXDH.decryptMessage b2 c e i k p).
Proof.
  split; intros.
  - unfold X3DH.decryptMessage. now rewrite H.
  - unfold PQXDH.decryptMessage. now rewrite H.
Qed.

(** ** The initiator *)

Lemma js_index_0 {A} (arr : list A) : js_index arr 0 = nth_error arr 0.
Proof. reflexivity. Qed.

Lemma X3DH_encryptMessage_inv {P : Primitives} b m
    (p p' : Party X3DH.Session.t Entropy) art :
  X3DH.encryptMessage b m p = (Ok art, p') ->
  exists eph w1 w2 pk0 dh1 dh2 dh3 dh4,
    CryptoUtils.generateKeyPair (world p) = (Ok eph, w1) /\
    nth_error (X3DH.Bundle.preKeys b) 0 = Some pk0 /\
    CryptoUtils.deriveSharedSecret
      (KeyPair.privateKey (X3DH.Session.identityKey (session p)))
      (X3DH.Bundle.identityKey b) = Ok dh1 /\
    CryptoUtils.deriveSharedSecret
      (KeyPair.privateKey eph) (X3DH.Bundle.identityKey b) = Ok dh2 /\
    CryptoUtils.deriveSharedSecret (KeyPair.privateKey eph) pk0 = Ok dh3 /\
    CryptoUtils.deriveSharedSecret
      (KeyPair.privateKey eph)
      (SignedPreKey.publicKey (X3DH.Bundle.signedPreKey b)) = Ok dh4 /\
    AES_encrypt m
      (CryptoUtils.deriveKey (CryptoUtils.combineSharedSecrets [dh1; dh2; dh3; dh4]))
      w1 = (Ok (X3DH.EncryptedMessage.encryptedMessage art), w2) /\
    X3DH.EncryptedMessage.ephemeralKey art = KeyPair.publicKey eph /\
    X3DH.EncryptedMessage.usedPreKeyIndex art = 0%Z /\
    p' = {| session := session p; world := w2 |}.
Proof.
  intros H. unfold X3DH.encryptMessage in H. invM.
  cbn in *. unfold CryptoUtils.encrypt in *.
  do 8 eexists. repeat split; eauto.
Qed.

Lemma PQXDH_encryptMessage_inv {P : Primitives} b m
    (p p' : Party PQXDH.Session.t Entropy) art :
  PQXDH.encryptMessage b m p = (Ok art, p') ->
  exists eph w1 w2 w3 pk0 dh1 dh2 dh3 dh4 kyberSharedSecret,
    CryptoUtils.generateKeyPair (world p) = (Ok eph, w1) /\
    nth_error (PQXDH.Bundle.preKeys b) 0 = Some pk0 /\
    CryptoUtils.deriveSharedSecret
      (KeyPair.privateKey (PQXDH.Session.identityKey (session p)))
      (PQXDH.Bundle.identityKey b) = Ok dh1 /\
    CryptoUtils.deriveSharedSecret
      (KeyPair.privateKey eph) (PQXDH.Bundle.identityKey b) = Ok dh2 /\
    CryptoUtils.deriveSharedSecret (KeyPair.privateKey eph) pk0 = Ok dh3 /\
    CryptoUtils.deriveSharedSecret
      (KeyPair.privateKey eph)
      (SignedPreKey.publicKey (PQXDH.Bundle.signedPreKey b)) = Ok dh4 /\
    MlKem1024_encap (PQXDH.Bundle.kyberPublicKey b) w1 =
      (Ok (PQXDH.EncryptedMessage.kyberCiphertext art, kyberSharedSecret), w2) /\
    AES_encrypt m
      (CryptoUtils.deriveKey
         (CryptoUtils.combineSharedSecrets
            [dh1; dh2; dh3; dh4; Buffer.toString_base64 kyberSharedSecret]))
      w2 = (Ok (PQXDH.EncryptedMessage.encryptedMessage art), w3) /\
    PQXDH.EncryptedMessage.ephemeralKey art = KeyPair.publicKey eph /\
    PQXDH.EncryptedMessage.usedPreKeyIndex art = 0%Z /\
    p' = {| session := session p; world := w3 |}.
Proof.
  intros H. unfold PQXDH.encryptMessage in H. invM.
  cbn in *. unfold CryptoUtils.encrypt in *.
  do 10 eexists. repeat split; eauto.
Qed.

(** The agreement part runs as the whole method does, up to the cipher. *)
Lemma X3DH_encryptMessage_secrets_run {P : Primitives} b
    (p : Party X3DH.Session.t Entropy) eph w1 pk0 dh1 dh2 dh3 dh4 :
  CryptoUtils.generateKeyPair (world p) = (Ok eph, w1) ->
  nth_error (X3DH.Bundle.preKeys b) 0 = Some pk0 ->
  CryptoUtils.deriveSharedSecret
    (KeyPair.privateKey (X3DH.Session.identityKey (session p)))
    (X3DH.Bundle.identityKey b) = Ok dh1 ->
  CryptoUtils.deriveSharedSecret
    (KeyPair.privateKey eph) (X3DH.Bundle.identityKey b) = Ok dh2 ->
  CryptoUtils.deriveSharedSecret (KeyPair.privateKey eph) pk0 = Ok dh3 ->
  CryptoUtils.deriveSharedSecret
    (KeyPair.privateKey eph)
    (SignedPreKey.publicKey (X3DH.Bundle.signedPreKey b)) = Ok dh4 ->
  X3DH.encryptMessage_secrets b p =
    (Ok (eph, [dh1; dh2; dh3; dh4]), {| session := session p; world := w1 |}).
Proof.
  intros Hg H0 H1 H2 H3 H4.
  unfold X3DH.encryptMessage_secrets, bind, this_session, liftW, liftR, ret.
  rewrite Hg. cbn in *. rewrite H1, H2, H0, H3, H4. reflexivity.
Qed.

Lemma PQXDH_encryptMessage_secrets_run {P : Primitives} b
    (p : Party PQXDH.Session.t Entropy) eph w1 w2 pk0 dh1 dh2 dh3 dh4 ct ss :
  CryptoUtils.generateKeyPair (world p) = (Ok eph, w1) ->
  nth_error (PQXDH.Bundle.preKeys b) 0 = Some pk0 ->
  CryptoUtils.deriveSharedSecret
    (KeyPair.privateKey (PQXDH.Session.identityKey (session p)))
    (PQXDH.Bundle.identityKey b) = Ok dh1 ->
  CryptoUtils.deriveSharedSecret
    (KeyPair.privateKey eph) (PQXDH.Bundle.identityKey b) = Ok dh2 ->
  CryptoUtils.deriveSharedSecret (KeyPair.privateKey eph) pk0 = Ok dh3 ->
  CryptoUtils.deriveSharedSecret
    (KeyPair.privateKey eph)
    (SignedPreKey.publicKey (PQXDH.Bundle.signedPreKey b)) = Ok dh4 ->
  MlKem1024_encap (PQXDH.Bundle.kyberPublicKey b) w1 = (Ok (ct, ss), w2) ->
  PQXDH.encryptMessage_secrets b p =
    (Ok (eph, ct, [dh1; dh2; dh3; dh4; Buffer.toString_base64 ss]),
     {| session := session p; world := w2 |}).
Proof.
  intros Hg H0 H1 H2 H3 H4 H5.
  unfold PQXDH.encryptMessage_secrets, bind, this_session, liftW, liftR, ret.
  rewrite Hg. cbn in *. rewrite H1, H2, H0, H3, H4. cbn. rewrite H5.
  reflexivity.
Qed.

(** C2: when [encryptMessage] returns, the plaintext was encrypted under the
    key derived from [combineSharedSecrets] applied to exactly
    [[dh1; dh2; dh3; dh4]] with
    [dh1 = DH(S.identityKey.privateKey, B.identityKey)],
    [dh2 = DH(eph.privateKey, B.identityKey)],
    [dh3 = DH(eph.privateKey, B.preKeys[0])] and
    [dh4 = DH(eph.privateKey, B.signedPreKey.publicKey)], where [eph] is the
    key pair generated at the start of the call; PQXDH appends the base64 text
    of the encapsulated secret as a fifth element. *)
Theorem C2_encryptMessage_secret_list {P : Primitives} :
  (forall b m (p p' : Party X3DH.Session.t Entropy) art,
    X3DH.encryptMessage b m p = (Ok art, p') ->
    X3DH_initiator_steps b m p art) /\
  (forall b m (p p' : Party PQXDH.Session.t Entropy) art,
    PQXDH.encryptMessage b m p = (Ok art, p') ->
    PQXDH_initiator_steps b m p art).
Proof.
  split.
  - intros b m p p' art H.
    destruct (X3DH_encryptMessage_inv _ _ _ _ _ H)
      as (eph & w1 & w2 & pk0 & dh1 & dh2 & dh3 & dh4 &
          Hg & H0 & H1 & H2 & H3 & H4 & Hc & He & _ & _).
    exists eph, w1, w2, pk0, dh1, dh2, dh3, dh4.
    repeat split; try assumption.
    apply (X3DH_encryptMessage_secrets_run b p eph w1 pk0 dh1 dh2 dh3 dh4); assumption.
  - intros b m p p' art H.
    destruct (PQXDH_encryptMessage_inv _ _ _ _ _ H)
      as (eph & w1 & w2 & w3 & pk0 & dh1 & dh2 & dh3 & dh4 & ss &
          Hg & H0 & H1 & H2 & H3 & H4 & Hk & Hc & He & _ & _).
    exists eph, w1, w2, w3, pk0, dh1, dh2, dh3, dh4, ss.
    repeat split; try assumption.
    apply (PQXDH_encryptMessage_secrets_run b p eph w1 w2 pk0 dh1 dh2 dh3 dh4 _ ss);
      assumption.
Qed.

(** C6: every artifact [encryptMessage] returns has [usedPreKeyIndex = 0];
    the third secret of the list is the DH of the ephemeral private key with
    the bundle's pre-key at index 0; and no other pre-key of the bundle is
    read: bundles that agree on [identityKey], [preKeys[0]] and
    [signedPreKey.publicKey] (and [kyberPublicKey]) give the same result. *)
Theorem C6_encryptMessage_uses_preKey_0 {P : Primitives} :
  (forall b m (p p' : Party X3DH.Session.t Entropy) art,
    X3DH.encryptMessage b m p = (Ok art, p') ->
    X3DH.EncryptedMessage.usedPreKeyIndex art = 0%Z /\
    X3DH_third_secret_from_preKey_0 b p) /\
  (forall b b' m (p : Party X3DH.Session.t Entropy),
    X3DH.Bundle.identityKey b = X3DH.Bundle.identityKey b' ->
    nth_error (X3DH.Bundle.preKeys b) 0 = nth_error (X3DH.Bundle.preKeys b') 0 ->
    SignedPreKey.publicKey (X3DH.Bundle.signedPreKey b) =
      SignedPreKey.publicKey (X3DH.Bundle.signedPreKey b') ->
    X3DH.encryptMessage b m p = X3DH.encryptMessage b' m p) /\
  (forall b m (p p' : Party PQXDH.Session.t Entropy) art,
    PQXDH.encryptMessage b m p = (Ok art, p') ->
    PQXDH.EncryptedMessage.usedPreKeyIndex art = 0%Z /\
    PQXDH_third_secret_from_preKey_0 b p) /\
  (forall b b' m (p : Party PQXDH.Session.t Entropy),
    PQXDH.Bundle.identityKey b = PQXDH.Bundle.identityKey b' ->
    nth_error (PQXDH.Bundle.preKeys b) 0 = nth_error (PQXDH.Bundle.preKeys b') 0 ->
    SignedPreKey.publicKey (PQXDH.Bundle.signedPreKey b) =
      SignedPreKey.publicKey (PQXDH.Bundle.signedPreKey b') ->
    PQXDH.Bundle.kyberPublicKey b = PQXDH.Bundle.kyberPublicKey b' ->
    PQXDH.encryptMessage b m p = PQXDH.encryptMessage b' m p).
Proof.
  split; [|split; [|split]].
  - intros b m p p' art H.
    destruct (X3DH_encryptMessage_inv _ _ _ _ _ H)
      as (eph & w1 & w2 & pk0 & dh1 & dh2 & dh3 & dh4 &
          Hg & H0 & H1 & H2 & H3 & H4 & Hc & He & Hi & _).
    split; [exact Hi|].
    exists eph, [dh1; dh2; dh3; dh4], {| session := session p; world := w1 |}, pk0, dh3.
    repeat split; try assumption.
    apply (X3DH_encryptMessage_secrets_run b p eph w1 pk0 dh1 dh2 dh3 dh4); assumption.
  - intros b b' m p Hid H0 Hs.
    unfold X3DH.encryptMessage. rewrite !js_index_0, Hid, H0, Hs. reflexivity.
  - intros b m p p' art H.
    destruct (PQXDH_encryptMessage_inv _ _ _ _ _ H)
      as (eph & w1 & w2 & w3 & pk0 & dh1 & dh2 & dh3 & dh4 & ss &
          Hg & H0 & H1 & H2 & H3 & H4 & Hk & Hc & He & Hi & _).
    split; [exact Hi|].
    exists eph, (PQXDH.EncryptedMessage.kyberCiphertext art),
      [dh1; dh2; dh3; dh4; Buffer.toString_base64 ss],
      {| session := session p; world := w2 |}, pk0, dh3.
    repeat split; try assumption.
    apply (PQXDH_encryptMessage_secrets_run b p eph w1 w2 pk0 dh1 dh2 dh3 dh4 _ ss);
      assumption.
  - intros b b' m p Hid H0 Hs Hk.
    unfold PQXDH.encryptMessage. rewrite !js_index_0, Hid, H0, Hs, Hk. reflexivity.
Qed.

(** ** Diffie-Hellman between generated keys *)

Lemma generateKeyPair_inv {P : Primitives} w kp w' :
  CryptoUtils.generateKeyPair w = (Ok kp, w') ->
  exists sk pk,
    randomBytes 32 w = (Ok sk, w') /\
    x25519_getPublicKey sk = Ok pk /\
    kp = {| KeyPair.publicKey := Buffer.toString_base64 pk;
            KeyPair.privateKey := Buffer.toString_base64 sk |}.
Proof.
  intros H. unfold CryptoUtils.generateKeyPair in H. invM.
  eauto.
Qed.

Lemma generated_keys {P : Primitives} kp :
  generated kp ->
  exists sk pk,
    x25519_getPublicKey sk = Ok pk /\
    KeyPair.publicKey kp = Buffer.toString_base64 pk /\
    KeyPair.privateKey kp = Buffer.toString_base64 sk.
Proof.
  intros (w & w' & H).
  apply generateKeyPair_inv in H. destruct H as (sk & pk & _ & Hpk & ->).
  now exists sk, pk.
Qed.

Lemma deriveSharedSecret_commutes {P : Primitives} (a b : KeyPair.t) :
  x25519_commutes P ->
  generated a -> generated b ->
  exists s,
    CryptoUtils.deriveSharedSecret (KeyPair.privateKey a) (KeyPair.publicKey b) = Ok s /\
    CryptoUtils.deriveSharedSecret (KeyPair.privateKey b) (KeyPair.publicKey a) = Ok s.
Proof.
  intros Hx Ha Hb.
  destruct (generated_keys a Ha) as (ska & pka & Hka & -> & ->).
  destruct (generated_keys b Hb) as (skb & pkb & Hkb & -> & ->).
  destruct (Hx ska skb pka pkb Hka Hkb) as (s & H1 & H2).
  exists (Buffer.toString_base64 s).
  unfold CryptoUtils.deriveSharedSecret.
  rewrite !from_base64_toString_base64, H1, H2. auto.
Qed.

Lemma deriveSharedSecret_mirror {P : Primitives} (a b : KeyPair.t) s :
  x25519_commutes P ->
  generated a -> generated b ->
  CryptoUtils.deriveSharedSecret (KeyPair.privateKey a) (KeyPair.publicKey b) = Ok s ->
  CryptoUtils.deriveSharedSecret (KeyPair.privateKey b) (KeyPair.publicKey a) = Ok s.
Proof.
  intros Hx Ha Hb H.
  destruct (deriveSharedSecret_commutes a b Hx Ha Hb) as (s' & H1 & H2).
  congruence.
Qed.

(** C3: for key pairs [a] and [b] produced by [generateKeyPair],
    [deriveSharedSecret(a.privateKey, b.publicKey)] and
    [deriveSharedSecret(b.privateKey, a.publicKey)] return the same secret. *)
Theorem C3_deriveSharedSecret_commutes {P : Primitives}
    (Hx : x25519_commutes P) (w1 w2 w1' w2' : Entropy) (a b : KeyPair.t) :
  CryptoUtils.generateKeyPair w1 = (Ok a, w1') ->
  CryptoUtils.generateKeyPair w2 = (Ok b, w2') ->
  CryptoUtils.deriveSharedSecret (KeyPair.privateKey a) (KeyPair.publicKey b) =
  CryptoUtils.deriveSharedSecret (KeyPair.privateKey b) (KeyPair.publicKey a) /\
  exists s,
    CryptoUtils.deriveSharedSecret (KeyPair.privateKey a) (KeyPair.publicKey b) = Ok s.
Proof.
  intros Ha Hb.
  destruct (deriveSharedSecret_commutes a b Hx) as (s & H1 & H2).
  - now exists w1, w1'.
  - now exists w2, w2'.
  - split; [congruence | now exists s].
Qed.

(** ** Honest sessions *)

Lemma replicateM_inv {S A} (Q : A -> Prop) (c : M S A) :
  (forall s a s', c s = (Ok a, s') -> Q a) ->
  forall n s l s',
    replicateM n c s = (Ok l, s') -> Forall Q l /\ List.length l = n.
Proof.
  intros Hc. induction n as [|n IH]; intros s l s' H; cbn in H.
  - apply ret_Ok in H. destruct H as [-> _]. auto.
  - invM. match goal with
          | H1 : c _ = _, H2 : replicateM _ _ _ = _ |- _ =>
              apply Hc in H1; apply IH in H2; destruct H2 as [? ?]
          end.
    split; [constructor; assumption | cbn; congruence].
Qed.

Lemma generateSignedPreKey_inv {P : Primitives} idk w spk w' :
  CryptoUtils.generateSignedPreKey idk w = (Ok spk, w') ->
  generated {| KeyPair.publicKey := SignedPreKeyPair.publicKey spk;
               KeyPair.privateKey := SignedPreKeyPair.privateKey spk |} /\
  SignedPreKeyPair.signature spk =
    CryptoUtils.sign idk (SignedPreKeyPair.publicKey spk).
Proof.
  intros H. unfold CryptoUtils.generateSignedPreKey in H. invM. cbn.
  split; [|reflexivity].
  match goal with
  | H : CryptoUtils.generateKeyPair ?w = (Ok ?k, ?w') |- _ =>
      exists w, w'; destruct k; exact H
  end.
Qed.

Lemma X3DH_initializeSession_inv {P : Primitives} w s w' :
  X3DH.initializeSession w = (Ok s, w') ->
  generated (X3DH.Session.identityKey s) /\
  Forall generated (X3DH.Session.preKeys s) /\
  List.length (X3DH.Session.preKeys s) = 10%nat /\
  generated {| KeyPair.publicKey :=
                 SignedPreKeyPair.publicKey (X3DH.Session.signedPreKey s);
               KeyPair.privateKey :=
                 SignedPreKeyPair.privateKey (X3DH.Session.signedPreKey s) |}.
Proof.
  intros H. unfold X3DH.initializeSession in H. invM. cbn.
  repeat match goal with
  | H : replicateM _ _ _ = _ |- _ =>
      apply (replicateM_inv generated) in H;
      [destruct H as [? ?] | intros ? ? ? Hg; eexists; eexists; exact Hg]
  | H : CryptoUtils.generateSignedPreKey _ _ = _ |- _ =>
      apply generateSignedPreKey_inv in H; destruct H as [? _]
  end.
  repeat split; try assumption.
  eexists; eexists; eassumption.
Qed.

Lemma PQXDH_initializeSession_inv {P : Primitives} w s w' :
  PQXDH.initializeSession w = (Ok s, w') ->
  generated (PQXDH.Session.identityKey s) /\
  Forall generated (PQXDH.Session.preKeys s) /\
  List.length (PQXDH.Session.preKeys s) = 10%nat /\
  generated {| KeyPair.publicKey :=
                 SignedPreKeyPair.publicKey (PQXDH.Session.signedPreKey s);
               KeyPair.privateKey :=
                 SignedPreKeyPair.privateKey (PQXDH.Session.signedPreKey s) |} /\
  exists wk wk',
    MlKem1024_generateKeyPair wk =
      (Ok (KyberKeyPair.publicKey (PQXDH.Session.kyberKeyPair s),
           KyberKeyPair.privateKey (PQXDH.Session.kyberKeyPair s)), wk').
Proof.
  intros H. unfold PQXDH.initializeSession in H. invM. cbn.
  repeat match goal with
  | H : replicateM _ _ _ = _ |- _ =>
      apply (replicateM_inv generated) in H;
      [destruct H as [? ?] | intros ? ? ? Hg; eexists; eexists; exact Hg]
  | H : CryptoUtils.generateSignedPreKey _ _ = _ |- _ =>
      apply generateSignedPreKey_inv in H; destruct H as [? _]
  end.
  repeat split; try assumption.
  - eexists; eexists; eassumption.
  - eexists; eexists; eassumption.
Qed.

(** ** Agreement *)

Lemma X3DH_decryptMessage_via_secrets {P : Primitives} b c e i
    (p : Party X3DH.Session.t Entropy) :
  X3DH.decryptMessage b c e i p =
  bind (X3DH.decryptMessage_secrets b e i)
       (fun secrets =>
          liftR (CryptoUtils.decrypt c (CryptoUtils.combineSharedSecrets secrets))) p.
Proof.
  unfold X3DH.decryptMessage, X3DH.decryptMessage_secrets,
    bind, this_session, liftR, ret, throw.
  repeat match goal with
         | |- context [CryptoUtils.deriveSharedSecret ?a ?b] =>
             destruct (CryptoUtils.deriveSharedSecret a b)
         | |- context [js_index ?l ?i] => destruct (js_index l i)
         end; reflexivity.
Qed.

Lemma PQXDH_decryptMessage_via_secrets {P : Primitives} b c e i k
    (p : Party PQXDH.Session.t Entropy) :
  PQXDH.decryptMessage b c e i k p =
  bind (PQXDH.decryptMessage_secrets b e i k)
       (fun secrets =>
          liftR (CryptoUtils.decrypt c (CryptoUtils.combineSharedSecrets secrets))) p.
Proof.
  unfold PQXDH.decryptMessage, PQXDH.decryptMessage_secrets,
    bind, this_session, liftR, ret, throw.
  repeat match goal with
         | |- context [CryptoUtils.deriveSharedSecret ?a ?b] =>
             destruct (CryptoUtils.deriveSharedSecret a b)
         | |- context [js_index ?l ?i] => destruct (js_index l i)
         | |- context [MlKem1024_decap ?a ?b] => destruct (MlKem1024_decap a b)
         end; reflexivity.
Qed.

Lemma nth_error_publicKey (l : list KeyPair.t) (n : nat) (pk : string) :
  nth_error (map KeyPair.publicKey l) n = Some pk ->
  exists kp, nth_error l n = Some kp /\ KeyPair.publicKey kp = pk.
Proof.
  rewrite nth_error_map. destruct (nth_error l n) as [kp|]; cbn; intros H.
  - inversion H. now exists kp.
  - discriminate.
Qed.

(** The responder recomputes the initiator's list. *)
Lemma X3DH_responder_mirrors {P : Primitives} (Hx : x25519_commutes P)
    wa wa' wb wb' (pa pb pa0 pb0 pa1 : Party X3DH.Session.t Entropy)
    bundleA bundleB eph secrets :
  X3DH.initializeSession wa = (Ok (session pa), wa') ->
  X3DH.initializeSession wb = (Ok (session pb), wb') ->
  X3DH.getPublicBundle pa = (Ok bundleA, pa0) ->
  X3DH.getPublicBundle pb = (Ok bundleB, pb0) ->
  X3DH.encryptMessage_secrets bundleB pa = (Ok (eph, secrets), pa1) ->
  X3DH.decryptMessage_secrets bundleA (KeyPair.publicKey eph) 0 pb =
    (Ok secrets, pb).
Proof.
  intros HA HB HbA HbB H.
  apply X3DH_initializeSession_inv in HA. destruct HA as (HAi & _).
  apply X3DH_initializeSession_inv in HB. destruct HB as (HBi & HBp & _ & HBs).
  unfold X3DH.getPublicBundle in HbA, HbB.
  unfold X3DH.encryptMessage_secrets in H. invM.
  rewrite js_index_0 in *. cbn [X3DH.Bundle.preKeys X3DH.Bundle.identityKey
    X3DH.Bundle.signedPreKey SignedPreKey.publicKey session world] in *.
  match goal with
  | H : nth_error (map _ _) 0 = Some _ |- _ =>
      apply nth_error_publicKey in H; destruct H as (kp0 & Hkp0 & <-)
  end.
  assert (Hg0 : generated kp0).
  { rewrite Forall_forall in HBp. eapply HBp, nth_error_In, Hkp0. }
  match goal with
  | Hg : CryptoUtils.generateKeyPair _ = (Ok ?e, _) |- _ =>
      assert (Hge : generated e) by (eexists; eexists; exact Hg)
  end.
  unfold X3DH.decryptMessage_secrets, bind, this_session, liftR, ret.
  rewrite js_index_0, Hkp0. cbn.
  repeat match goal with
  | H : CryptoUtils.deriveSharedSecret _ _ = Ok _ |- _ =>
      first [ apply (deriveSharedSecret_mirror _ _ _ Hx HAi HBi) in H
            | apply (deriveSharedSecret_mirror _ _ _ Hx Hge HBi) in H
            | apply (deriveSharedSecret_mirror _ _ _ Hx Hge Hg0) in H
            | apply (deriveSharedSecret_mirror _ _ _ Hx Hge HBs) in H ];
      cbn in H; rewrite H; clear H
  end.
  reflexivity.
Qed.

Lemma PQXDH_responder_mirrors {P : Primitives}
    (Hx : x25519_commutes P) (Hk : MlKem1024_correct P)
    wa wa' wb wb' (pa pb pa0 pb0 pa1 : Party PQXDH.Session.t Entropy)
    bundleA bundleB eph ct secrets :
  PQXDH.initializeSession wa = (Ok (session pa), wa') ->
  PQXDH.initializeSession wb = (Ok (session pb), wb') ->
  PQXDH.getPublicBundle pa = (Ok bundleA, pa0) ->
  PQXDH.getPublicBundle pb = (Ok bundleB, pb0) ->
  PQXDH.encryptMessage_secrets bundleB pa = (Ok (eph, ct, secrets), pa1) ->
  PQXDH.decryptMessage_secrets bundleA (KeyPair.publicKey eph) 0 ct pb =
    (Ok secrets, pb).
Proof.
  intros HA HB HbA HbB H.
  apply PQXDH_initializeSession_inv in HA. destruct HA as (HAi & _).
  apply PQXDH_initializeSession_inv in HB.
  destruct HB as (HBi & HBp & _ & HBs & wk & wk' & HBk).
  unfold PQXDH.getPublicBundle in HbA, HbB.
  unfold PQXDH.encryptMessage_secrets in H. invM.
  rewrite js_index_0 in *. cbn [PQXDH.Bundle.preKeys PQXDH.Bundle.identityKey
    PQXDH.Bundle.signedPreKey PQXDH.Bundle.kyberPublicKey
    SignedPreKey.publicKey session world] in *.
  match goal with
  | H : nth_error (map _ _) 0 = Some _ |- _ =>
      apply nth_error_publicKey in H; destruct H as (kp0 & Hkp0 & <-)
  end.
  assert (Hg0 : generated kp0).
  { rewrite Forall_forall in HBp. eapply HBp, nth_error_In, Hkp0. }
  match goal with
  | Hg : CryptoUtils.generateKeyPair _ = (Ok ?e, _) |- _ =>
      assert (Hge : generated e) by (eexists; eexists; exact Hg)
  end.
  match goal with
  | He : MlKem1024_encap _ _ = (Ok _, _) |- _ =>
      pose proof (Hk _ _ _ _ _ _ _ _ HBk He) as Hd
  end.
  unfold PQXDH.decryptMessage_secrets, bind, this_session, liftR, ret.
  rewrite js_index_0, Hkp0, Hd. cbn.
  repeat match goal with
  | H : CryptoUtils.deriveSharedSecret _ _ = Ok _ |- _ =>
      first [ apply (deriveSharedSecret_mirror _ _ _ Hx HAi HBi) in H
            | apply (deriveSharedSecret_mirror _ _ _ Hx Hge HBi) in H
            | apply (deriveSharedSecret_mirror _ _ _ Hx Hge Hg0) in H
            | apply (deriveSharedSecret_mirror _ _ _ Hx Hge HBs) in H ];
      cbn in H; rewrite H; clear H
  end.
  reflexivity.
Qed.

(** C1: let A and B be parties whose sessions [initializeSession] produced,
    each publishing its bundle with [getPublicBundle].  If A's
    [encryptMessage(bundleB, m)] returns an artifact, then B's
    [decryptMessage(bundleA, ...)] on its fields returns exactly [m], and the
    lists the two sides hand to [combineSharedSecrets], hence the two session
    secrets, are equal.  This holds for X3DH and for PQXDH. *)
Theorem C1_agreement {P : Primitives}
    (Hx : x25519_commutes P) (Ha : AES_inverts P) (Hk : MlKem1024_correct P) :
  (forall wa wa' wb wb' (pa pb pa0 pb0 pa' : Party X3DH.Session.t Entropy)
          bundleA bundleB m art,
    X3DH.initializeSession wa = (Ok (session pa), wa') ->
    X3DH.initializeSession wb = (Ok (session pb), wb') ->
    X3DH.getPublicBundle pa = (Ok bundleA, pa0) ->
    X3DH.getPublicBundle pb = (Ok bundleB, pb0) ->
    X3DH.encryptMessage bundleB m pa = (Ok art, pa') ->
    X3DH.decryptMessage bundleA
      (X3DH.EncryptedMessage.encryptedMessage art)
      (X3DH.EncryptedMessage.ephemeralKey art)
      (X3DH.EncryptedMessage.usedPreKeyIndex art) pb = (Ok m, pb) /\
    exists eph secretsA secretsB pa1,
      X3DH.encryptMessage_secrets bundleB pa = (Ok (eph, secretsA), pa1) /\
      X3DH.decryptMessage_secrets bundleA
        (X3DH.EncryptedMessage.ephemeralKey art)
        (X3DH.EncryptedMessage.usedPreKeyIndex art) pb = (Ok secretsB, pb) /\
      CryptoUtils.combineSharedSecrets secretsA =
        CryptoUtils.combineSharedSecrets secretsB) /\
  (forall wa wa' wb wb' (pa pb pa0 pb0 pa' : Party PQXDH.Session.t Entropy)
          bundleA bundleB m art,
    PQXDH.initializeSession wa = (Ok (session pa), wa') ->
    PQXDH.initializeSession wb = (Ok (session pb), wb') ->
    PQXDH.getPublicBundle pa = (Ok bundleA, pa0) ->
    PQXDH.getPublicBundle pb = (Ok bundleB, pb0) ->
    PQXDH.encryptMessage bundleB m pa = (Ok art, pa') ->
    PQXDH.decryptMessage bundleA
      (PQXDH.EncryptedMessage.encryptedMessage art)
      (PQXDH.EncryptedMessage.ephemeralKey art)
      (PQXDH.EncryptedMessage.usedPreKeyIndex art)
      (PQXDH.EncryptedMessage.kyberCiphertext art) pb = (Ok m, pb) /\
    exists eph secretsA secretsB pa1,
      PQXDH.encryptMessage_secrets bundleB pa =
        (Ok (eph, PQXDH.EncryptedMessage.kyberCiphertext art, secretsA), pa1) /\
      PQXDH.decryptMessage_secrets bundleA
        (PQXDH.EncryptedMessage.ephemeralKey art)
        (PQXDH.EncryptedMessage.usedPreKeyIndex art)
        (PQXDH.EncryptedMessage.kyberCiphertext art) pb = (Ok secretsB, pb) /\
      CryptoUtils.combineSharedSecrets secretsA =
        CryptoUtils.combineSharedSecrets secretsB).
Proof.
  split.
  - intros wa wa' wb wb' pa pb pa0 pb0 pa' bundleA bundleB m art HA HB HbA HbB H.
    destruct (X3DH_encryptMessage_inv _ _ _ _ _ H)
      as (eph & w1 & w2 & pk0 & dh1 & dh2 & dh3 & dh4 &
          Hg & H0 & H1 & H2 & H3 & H4 & Hc & He & Hi & _).
    pose proof (X3DH_encryptMessage_secrets_run
                  bundleB pa eph w1 pk0 dh1 dh2 dh3 dh4 Hg H0 H1 H2 H3 H4) as Hs.
    pose proof (X3DH_responder_mirrors Hx _ _ _ _ _ _ _ _ _ _ _ _ _
                  HA HB HbA HbB Hs) as Hr.
    rewrite He, Hi.
    split.
    + rewrite X3DH_decryptMessage_via_secrets.
      rewrite (bind_run _ _ _ _ _ Hr).
      unfold liftR, CryptoUtils.decrypt.
      now rewrite (Ha _ _ _ _ _ Hc).
    + now exists eph, [dh1; dh2; dh3; dh4], [dh1; dh2; dh3; dh4],
        {| session := session pa; world := w1 |}.
  - intros wa wa' wb wb' pa pb pa0 pb0 pa' bundleA bundleB m art HA HB HbA HbB H.
    destruct (PQXDH_encryptMessage_inv _ _ _ _ _ H)
      as (eph & w1 & w2 & w3 & pk0 & dh1 & dh2 & dh3 & dh4 & ss &
          Hg & H0 & H1 & H2 & H3 & H4 & Hkem & Hc & He & Hi & _).
    pose proof (PQXDH_encryptMessage_secrets_run
                  bundleB pa eph w1 w2 pk0 dh1 dh2 dh3 dh4 _ ss
                  Hg H0 H1 H2 H3 H4 Hkem) as Hs.
    pose proof (PQXDH_responder_mirrors Hx Hk _ _ _ _ _ _ _ _ _ _ _ _ _ _
                  HA HB HbA HbB Hs) as Hr.
    rewrite He, Hi.
    split.
    + rewrite PQXDH_decryptMessage_via_secrets.
      rewrite (bind_run _ _ _ _ _ Hr).
      unfold liftR, CryptoUtils.decrypt.
      now rewrite (Ha _ _ _ _ _ Hc).
    + now exists eph, [dh1; dh2; dh3; dh4; Buffer.toString_base64 ss],
        [dh1; dh2; dh3; dh4; Buffer.toString_base64 ss],
        {| session := session pa; world := w2 |}.
Qed.

(** ** The executable instance meets the libraries' contracts *)

Lemma Toy_byte_mul_swap (a b g : byte) :
  Toy.byte_mul a (Toy.byte_mul b g) = Toy.byte_mul b (Toy.byte_mul a g).
Proof.
  unfold Toy.byte_mul. rewrite !to_N_byte_of_N.
  unfold Buffer.byte_of_N.
  rewrite !N.Div0.mul_mod_idemp_r.
  now replace (Byte.to_N a * (Byte.to_N b * Byte.to_N g))
    with (Byte.to_N b * (Byte.to_N a * Byte.to_N g)) by lia.
Qed.

Lemma Toy_scalarMult_swap (a b : bytes) :
  List.length a = List.length b ->
  Toy.scalarMult a (Toy.scalarMultBase b) = Toy.scalarMult b (Toy.scalarMultBase a).
Proof.
  revert b. induction a as [|x a IH]; intros [|y b] Hlen; try discriminate.
  - reflexivity.
  - cbn in Hlen. injection Hlen as Hlen.
    unfold Toy.scalarMult, Toy.scalarMultBase in *. cbn.
    now rewrite Toy_byte_mul_swap, IH.
Qed.

Lemma Toy_scalarMultBase_length (a : bytes) :
  List.length (Toy.scalarMultBase a) = List.length a.
Proof. apply length_map. Qed.

Lemma Toy_getPublicKey_inv (sk pk : bytes) :
  Toy.getPublicKey sk = Ok pk ->
  List.length sk = 32%nat /\ pk = Toy.scalarMultBase sk.
Proof.
  unfold Toy.getPublicKey.
  destruct (Nat.eqb (List.length sk) 32) eqn:E; intros H; inversion H.
  apply Nat.eqb_eq in E. auto.
Qed.

Lemma Toy_getSharedSecret_run (sk pk : bytes) :
  List.length sk = 32%nat -> List.length pk = 32%nat ->
  Toy.getSharedSecret sk pk = Ok (Toy.scalarMult sk pk).
Proof.
  intros H1 H2. unfold Toy.getSharedSecret. now rewrite H1, H2.
Qed.

Lemma Toy_x25519_commutes : x25519_commutes Toy.primitives.
Proof.
  intros a b A B Ha Hb.
  change (Toy.getPublicKey a = Ok A) in Ha.
  change (Toy.getPublicKey b = Ok B) in Hb.
  change (exists s, Toy.getSharedSecret a B = Ok s /\ Toy.getSharedSecret b A = Ok s).
  apply Toy_getPublicKey_inv in Ha. destruct Ha as [La ->].
  apply Toy_getPublicKey_inv in Hb. destruct Hb as [Lb ->].
  exists (Toy.scalarMult a (Toy.scalarMultBase b)). split.
  - apply Toy_getSharedSecret_run; [|rewrite Toy_scalarMultBase_length]; assumption.
  - rewrite Toy_scalarMult_swap by congruence.
    apply Toy_getSharedSecret_run; [|rewrite Toy_scalarMultBase_length]; assumption.
Qed.

Lemma Toy_strip_prefix_app (key m : string) :
  Toy.strip_prefix key (key ++ m) = Some m.
Proof.
  induction key as [|c key IH]; cbn.
  - reflexivity.
  - now rewrite Ascii.eqb_refl.
Qed.

Lemma Toy_AES_inverts : AES_inverts Toy.primitives.
Proof.
  intros m key w c w' H.
  change (Toy.cipher_encrypt m key w = (Ok c, w')) in H.
  change (Toy.cipher_decrypt c key = Ok m).
  unfold Toy.cipher_encrypt in H. apply ret_Ok in H. destruct H as [-> _].
  unfold Toy.cipher_decrypt. now rewrite Toy_strip_prefix_app.
Qed.

Lemma Toy_counterBytes_inv (n : nat) w bs w' :
  Toy.counterBytes n w = (Ok bs, w') -> List.length bs = n.
Proof.
  unfold Toy.counterBytes. intros H. inversion H.
  now rewrite length_map, length_seq.
Qed.

Lemma Toy_MlKem1024_correct : MlKem1024_correct Toy.primitives.
Proof.
  intros w pk sk w' w1 ct ss w2 Hg He.
  change (Toy.kem_generateKeyPair w = (Ok (pk, sk), w')) in Hg.
  change (Toy.kem_encap pk w1 = (Ok (ct, ss), w2)) in He.
  change (Toy.kem_decap ct sk = Ok ss).
  unfold Toy.kem_generateKeyPair in Hg. apply bind_Ok in Hg.
  destruct Hg as (sk0 & w0 & Hsk & Hret).
  apply ret_Ok in Hret. destruct Hret as [Hpair _].
  inversion Hpair; subst pk sk; clear Hpair.
  apply Toy_counterBytes_inv in Hsk.
  unfold Toy.kem_encap in He. apply bind_Ok in He.
  destruct He as (r & w3 & Hr & He).
  apply Toy_counterBytes_inv in Hr.
  rewrite Toy_scalarMultBase_length, Hsk in He. cbn in He.
  apply ret_Ok in He. destruct He as [Hpair _].
  inversion Hpair; subst ct ss; clear Hpair.
  unfold Toy.kem_decap.
  rewrite Toy_scalarMult_swap by congruence.
  apply Toy_getSharedSecret_run; [|rewrite Toy_scalarMultBase_length]; assumption.
Qed.

(** ** The theorems at work on the run of [Scenario] *)

(** Bob decrypts what Alice encrypted to him, classical and hybrid. *)
Lemma C1_agreement_witness :
  X3DH.decryptMessage (P := Toy.primitives) Scenario.aliceBundle
    (X3DH.EncryptedMessage.encryptedMessage Scenario.message)
    (X3DH.EncryptedMessage.ephemeralKey Scenario.message)
    (X3DH.EncryptedMessage.usedPreKeyIndex Scenario.message)
    Scenario.bob = (Ok "hello", Scenario.bob) /\
  PQXDH.decryptMessage (P := Toy.primitives) Scenario.aliceBundleQ
    (PQXDH.EncryptedMessage.encryptedMessage Scenario.messageQ)
    (PQXDH.EncryptedMessage.ephemeralKey Scenario.messageQ)
    (PQXDH.EncryptedMessage.usedPreKeyIndex Scenario.messageQ)
    (PQXDH.EncryptedMessage.kyberCiphertext Scenario.messageQ)
    Scenario.bobQ = (Ok "hello", Scenario.bobQ).
Proof.
  destruct (C1_agreement (P := Toy.primitives)
              Toy_x25519_commutes Toy_AES_inverts Toy_MlKem1024_correct)
    as [HX HQ].
  split.
  - refine (proj1 (HX 0%nat _ 1000%nat _ Scenario.alice Scenario.bob _ _ _
                      Scenario.aliceBundle Scenario.bobBundle "hello"
                      Scenario.message _ _ _ _ _));
      vm_compute; reflexivity.
  - refine (proj1 (HQ 0%nat _ 1000%nat _ Scenario.aliceQ Scenario.bobQ _ _ _
                      Scenario.aliceBundleQ Scenario.bobBundleQ "hello"
                      Scenario.messageQ _ _ _ _ _));
      vm_compute; reflexivity.
Defined.

(** The steps of Alice's two calls. *)
Lemma C2_encryptMessage_secret_list_witness :
  X3DH_initiator_steps (P := Toy.primitives)
    Scenario.bobBundle "hello" Scenario.alice Scenario.message /\
  PQXDH_initiator_steps (P := Toy.primitives)
    Scenario.bobBundleQ "hello" Scenario.aliceQ Scenario.messageQ.
Proof.
  destruct (C2_encryptMessage_secret_list (P := Toy.primitives)) as [HX HQ].
  split.
  - refine (HX Scenario.bobBundle "hello" Scenario.alice _ Scenario.message _);
      vm_compute; reflexivity.
  - refine (HQ Scenario.bobBundleQ "hello" Scenario.aliceQ _ Scenario.messageQ _);
      vm_compute; reflexivity.
Defined.

(** Two generated key pairs agree on their shared secret. *)
Lemma C3_deriveSharedSecret_commutes_witness :
  CryptoUtils.deriveSharedSecret (P := Toy.primitives)
    (KeyPair.privateKey Scenario.keyA) (KeyPair.publicKey Scenario.keyB) =
  CryptoUtils.deriveSharedSecret (P := Toy.primitives)
    (KeyPair.privateKey Scenario.keyB) (KeyPair.publicKey Scenario.keyA) /\
  exists s,
    CryptoUtils.deriveSharedSecret (P := Toy.primitives)
      (KeyPair.privateKey Scenario.keyA) (KeyPair.publicKey Scenario.keyB) = Ok s.
Proof.
  refine (C3_deriveSharedSecret_commutes (P := Toy.primitives)
            Toy_x25519_commutes 7%nat 70%nat _ _ Scenario.keyA Scenario.keyB _ _);
    vm_compute; reflexivity.
Defined.

(** Alice's calls use pre-key 0 of Bob's bundles and ignore the other nine. *)
Lemma C6_encryptMessage_uses_preKey_0_witness :
  (X3DH.EncryptedMessage.usedPreKeyIndex Scenario.message = 0%Z /\
   X3DH_third_secret_from_preKey_0 (P := Toy.primitives)
     Scenario.bobBundle Scenario.alice) /\
  X3DH.encryptMessage (P := Toy.primitives)
    Scenario.bobBundle "hello" Scenario.alice =
  X3DH.encryptMessage (P := Toy.primitives)
    Scenario.bobBundleCut "hello" Scenario.alice /\
  (PQXDH.EncryptedMessage.usedPreKeyIndex Scenario.messageQ = 0%Z /\
   PQXDH_third_secret_from_preKey_0 (P := Toy.primitives)
     Scenario.bobBundleQ Scenario.aliceQ) /\
  PQXDH.encryptMessage (P := Toy.primitives)
    Scenario.bobBundleQ "hello" Scenario.aliceQ =
  PQXDH.encryptMessage (P := Toy.primitives)
    Scenario.bobBundleCutQ "hello" Scenario.aliceQ.
Proof.
  destruct (C6_encryptMessage_uses_preKey_0 (P := Toy.primitives))
    as (H1 & H2 & H3 & H4).
  split; [|split; [|split]].
  - refine (H1 Scenario.bobBundle "hello" Scenario.alice _ Scenario.message _);
      vm_compute; reflexivity.
  - apply H2; reflexivity.
  - refine (H3 Scenario.bobBundleQ "hello" Scenario.aliceQ _ Scenario.messageQ _);
      vm_compute; reflexivity.
  - apply H4; reflexivity.
Defined.

(** Index 10 makes Bob's [decryptMessage] throw. *)
Lemma C7_decryptMessage_index_out_of_range_witness :
  (exists err,
     X3DH.decryptMessage (P := Toy.primitives) Scenario.aliceBundle
       (X3DH.EncryptedMessage.encryptedMessage Scenario.message)
       (X3DH.EncryptedMessage.ephemeralKey Scenario.message)
       10 Scenario.bob = (Throw err, Scenario.bob)) /\
  (exists err,
     PQXDH.decryptMessage (P := Toy.primitives) Scenario.aliceBundleQ
       (PQXDH.EncryptedMessage.encryptedMessage Scenario.messageQ)
       (PQXDH.EncryptedMessage.ephemeralKey Scenario.messageQ)
       10 (PQXDH.EncryptedMessage.kyberCiphertext Scenario.messageQ)
       Scenario.bobQ = (Throw err, Scenario.bobQ)).
Proof.
  destruct (C7_decryptMessage_index_out_of_range (P := Toy.primitives) 10)
    as [HX HQ].
  - right. lia.
  - split.
    + apply HX. reflexivity.
    + apply HQ. reflexivity.
Defined.

(** Wiping Alice's private keys does not change the bundle she publishes. *)
Lemma C9_getPublicBundle_public_projection_witness :
  fst (X3DH.getPublicBundle (P := Toy.primitives) Scenario.aliceWiped) =
    Ok Scenario.aliceBundle /\
  fst (PQXDH.getPublicBundle (P := Toy.primitives) Scenario.aliceWipedQ) =
    Ok Scenario.aliceBundleQ.
Proof.
  destruct (C9_getPublicBundle_public_projection (P := Toy.primitives))
    as [HX HQ].
  split.
  - destruct (HX Scenario.alice) as (b & Hb & _ & _ & _ & _ & _ & Hq).
    assert (Eb : b = Scenario.aliceBundle).
    { vm_compute in Hb. now inversion Hb. }
    rewrite <- Eb. apply Hq; vm_compute; reflexivity.
  - destruct (HQ Scenario.aliceQ) as (b & Hb & _ & _ & _ & _ & _ & _ & Hq).
    assert (Eb : b = Scenario.aliceBundleQ).
    { vm_compute in Hb. now inversion Hb. }
    rewrite <- Eb. apply Hq; vm_compute; reflexivity.
Defined.

(** Bob decrypts the same with Alice's bundle cut down to its identity key. *)
Lemma C10_decryptMessage_reads_identityKey_only_witness :
  X3DH.decryptMessage (P := Toy.primitives) Scenario.aliceBundle
    (X3DH.EncryptedMessage.encryptedMessage Scenario.message)
    (X3DH.EncryptedMessage.ephemeralKey Scenario.message) 0 Scenario.bob =
  X3DH.decryptMessage (P := Toy.primitives) Scenario.aliceBundleCut
    (X3DH.EncryptedMessage.encryptedMessage Scenario.message)
    (X3DH.EncryptedMessage.ephemeralKey Scenario.message) 0 Scenario.bob /\
  PQXDH.decryptMessage (P := Toy.primitives) Scenario.aliceBundleQ
    (PQXDH.EncryptedMessage.encryptedMessage Scenario.messageQ)
    (PQXDH.EncryptedMessage.ephemeralKey Scenario.messageQ) 0
    (PQXDH.EncryptedMessage.kyberCiphertext Scenario.messageQ) Scenario.bobQ =
  PQXDH.decryptMessage (P := Toy.primitives) Scenario.aliceBundleCutQ
    (PQXDH.EncryptedMessage.encryptedMessage Scenario.messageQ)
    (PQXDH.EncryptedMessage.ephemeralKey Scenario.messageQ) 0
    (PQXDH.EncryptedMessage.kyberCiphertext Scenario.messageQ) Scenario.bobQ.
Proof.
  destruct (C10_decryptMessage_reads_identityKey_only (P := Toy.primitives))
    as [HX HQ].
  split.
  - apply HX. reflexivity.
  - apply HQ. reflexivity.
Defined.


(** * Further properties of the code *)

(** ** Key generation *)

(** X1: a key pair returned by [generateKeyPair] holds, as base64 text, the
    32 bytes drawn from the random source (drawn once) as private key and
    their X25519 public key as public key. *)
Theorem X1_generateKeyPair_consistent {P : Primitives} w kp w' :
  CryptoUtils.generateKeyPair w = (Ok kp, w') ->
  randomBytes 32 w = (Ok (Buffer.from_base64 (KeyPair.privateKey kp)), w') /\
  keyPair_consistent (KeyPair.privateKey kp) (KeyPair.publicKey kp).
Proof.
  intros H. apply generateKeyPair_inv in H.
  destruct H as (sk & pk & Hr & Hpk & ->).
  unfold keyPair_consistent. cbn [KeyPair.privateKey KeyPair.publicKey].
  rewrite !from_base64_toString_base64. split; assumption.
Qed.

Lemma generated_consistent {P : Primitives} kp :
  generated kp ->
  keyPair_consistent (KeyPair.privateKey kp) (KeyPair.publicKey kp).
Proof.
  intros H. destruct (generated_keys kp H) as (sk & pk & Hpk & -> & ->).
  unfold keyPair_consistent. now rewrite !from_base64_toString_base64.
Qed.

Lemma from_base64_sign {P : Primitives} (privateKey data : string) :
  Buffer.from_base64 (CryptoUtils.sign privateKey data) =
  sha512 (Buffer.from_base64 privateKey ++ Buffer.from_base64 data)%list.
Proof. unfold CryptoUtils.sign. apply from_base64_toString_base64. Qed.

Lemma X3DH_initializeSession_signature {P : Primitives} w s w' :
  X3DH.initializeSession w = (Ok s, w') ->
  SignedPreKeyPair.signature (X3DH.Session.signedPreKey s) =
    CryptoUtils.sign (KeyPair.privateKey (X3DH.Session.identityKey s))
      (SignedPreKeyPair.publicKey (X3DH.Session.signedPreKey s)).
Proof.
  intros H. unfold X3DH.initializeSession in H. invM. cbn.
  match goal with
  | H : CryptoUtils.generateSignedPreKey _ _ = _ |- _ =>
      apply generateSignedPreKey_inv in H; destruct H as [_ H]; exact H
  end.
Qed.

Lemma PQXDH_initializeSession_signature {P : Primitives} w s w' :
  PQXDH.initializeSession w = (Ok s, w') ->
  SignedPreKeyPair.signature (PQXDH.Session.signedPreKey s) =
    CryptoUtils.sign (KeyPair.privateKey (PQXDH.Session.identityKey s))
      (SignedPreKeyPair.publicKey (PQXDH.Session.signedPreKey s)).
Proof.
  intros H. unfold PQXDH.initializeSession in H. invM. cbn.
  match goal with
  | H : CryptoUtils.generateSignedPreKey _ _ = _ |- _ =>
      apply generateSignedPreKey_inv in H; destruct H as [_ H]; exact H
  end.
Qed.

(** X2: a session returned by [initializeSession] (of [X3DH] or of [PQXDH])
    has exactly 10 pre-keys; its identity key pair, each pre-key pair and
    the signed pre-key pair are consistent X25519 pairs; and the signed
    pre-key's signature decodes to the SHA-512 digest of the identity
    private key bytes followed by the signed pre-key's public key bytes. *)
Theorem X2_initializeSession_invariant {P : Primitives} :
  (forall w s w',
    X3DH.initializeSession w = (Ok s, w') ->
    session_material (X3DH.Session.identityKey s) (X3DH.Session.preKeys s)
      (X3DH.Session.signedPreKey s)) /\
  (forall w s w',
    PQXDH.initializeSession w = (Ok s, w') ->
    session_material (PQXDH.Session.identityKey s) (PQXDH.Session.preKeys s)
      (PQXDH.Session.signedPreKey s) /\
    exists wk,
      MlKem1024_generateKeyPair wk =
        (Ok (KyberKeyPair.publicKey (PQXDH.Session.kyberKeyPair s),
             KyberKeyPair.privateKey (PQXDH.Session.kyberKeyPair s)), w')).
Proof.
  split; intros w s w' H.
  - pose proof (X3DH_initializeSession_signature _ _ _ H) as Hsig.
    apply X3DH_initializeSession_inv in H. destruct H as (Hi & Hp & Hl & Hs).
    split; [exact Hl|]. split; [now apply generated_consistent|].
    split; [|split].
    + intros k Hk. apply generated_consistent.
      rewrite Forall_forall in Hp. now apply Hp.
    + exact (generated_consistent _ Hs).
    + rewrite Hsig. apply from_base64_sign.
  - pose proof (PQXDH_initializeSession_signature _ _ _ H) as Hsig.
    pose proof H as Hk.
    apply PQXDH_initializeSession_inv in H.
    destruct H as (Hi & Hp & Hl & Hs & _).
    split.
    + split; [exact Hl|]. split; [now apply generated_consistent|].
      split; [|split].
      * intros k Hin. apply generated_consistent.
        rewrite Forall_forall in Hp. now apply Hp.
      * exact (generated_consistent _ Hs).
      * rewrite Hsig. apply from_base64_sign.
    + unfold PQXDH.initializeSession in Hk. invM. cbn. eauto.
Qed.

(** ** The cipher layer and the key derivation *)

(** X3: [decrypt] undoes [encrypt] under the same key text, and under any
    key text that decodes to the same bytes, since the cipher key is
    derived from the decoded key material only. *)
Theorem X3_decrypt_encrypt {P : Primitives} (Ha : AES_inverts P)
    (message key key' : string) w c w' :
  CryptoUtils.encrypt message key w = (Ok c, w') ->
  Buffer.from_base64 key' = Buffer.from_base64 key ->
  CryptoUtils.decrypt c key' = Ok message.
Proof.
  intros He Hk. unfold CryptoUtils.encrypt in He.
  unfold CryptoUtils.decrypt, CryptoUtils.deriveKey in *.
  rewrite Hk. exact (Ha _ _ _ _ _ He).
Qed.

(** X4: [deriveKey] and [combineSharedSecrets] hash the same input with the
    same context string: the cipher key derived from a key text is the first
    32 bytes of the secret that [combineSharedSecrets] gives for that text
    alone. *)
Theorem X4_deriveKey_truncates_combine {P : Primitives} (keyMaterial : string) :
  Buffer.from_base64 (CryptoUtils.deriveKey keyMaterial) =
  firstn 32
    (Buffer.from_base64 (CryptoUtils.combineSharedSecrets [keyMaterial])).
Proof.
  unfold CryptoUtils.deriveKey, CryptoUtils.combineSharedSecrets.
  rewrite !from_base64_toString_base64.
  cbn [map List.concat]. now rewrite app_nil_r.
Qed.

(** X5: [combineSharedSecrets] sees only the concatenation of the decoded
    secrets: lists with the same concatenation give the same result, so two
    secrets and their concatenation passed as one secret are not told
    apart. *)
Theorem X5_combineSharedSecrets_concatenation {P : Primitives} :
  (forall xs ys : list string,
    List.concat (map Buffer.from_base64 xs) =
      List.concat (map Buffer.from_base64 ys) ->
    CryptoUtils.combineSharedSecrets xs = CryptoUtils.combineSharedSecrets ys) /\
  (forall (a b : bytes) (rest : list string),
    CryptoUtils.combineSharedSecrets
      (Buffer.toString_base64 a :: Buffer.toString_base64 b :: rest) =
    CryptoUtils.combineSharedSecrets
      (Buffer.toString_base64 (a ++ b)%list :: rest)).
Proof.
  split.
  - intros xs ys H. unfold CryptoUtils.combineSharedSecrets. now rewrite H.
  - intros a b rest. unfold CryptoUtils.combineSharedSecrets.
    cbn [map List.concat].
    rewrite !from_base64_toString_base64. now rewrite app_assoc.
Qed.

(** ** The safety number's size *)

Lemma substring_0_length (n : nat) (s : string) :
  (String.length (substring 0 n s) <= n)%nat.
Proof.
  revert s. induction n as [|n IH]; intros [|c s]; cbn; try lia.
  specialize (IH s). lia.
Qed.

Lemma toString_base64_first_12 (h : bytes) :
  (9 <= List.length h)%nat ->
  substring 0 12 (Buffer.toString_base64 h) =
    Buffer.toString_base64 (firstn 9 h) /\
  String.length (Buffer.toString_base64 (firstn 9 h)) = 12%nat.
Proof.
  intros H.
  do 9 (destruct h as [|? h]; [cbn in H; lia|]).
  cbn [Buffer.toString_base64 firstn substring String.length].
  assert (E : substring 0 0 (Buffer.toString_base64 h) = EmptyString)
    by (now destruct (Buffer.toString_base64 h)).
  rewrite E. split; reflexivity.
Qed.

(** X6: the safety number has at most 12 characters; when the digest has
    at least 9 bytes (SHA-512 gives 64) it has exactly 12, and it is the
    base64 text of the first 9 bytes of the digest: 72 bits of the hash. *)
Theorem X6_generateSafetyNumber_size {P : Primitives} (key1 key2 : string) :
  (String.length (CryptoUtils.generateSafetyNumber key1 key2) <= 12)%nat /\
  ((9 <= List.length (sha512 (CryptoUtils.combinedKeys key1 key2)))%nat ->
   CryptoUtils.generateSafetyNumber key1 key2 =
     Buffer.toString_base64
       (firstn 9 (sha512 (CryptoUtils.combinedKeys key1 key2))) /\
   String.length (CryptoUtils.generateSafetyNumber key1 key2) = 12%nat).
Proof.
  unfold CryptoUtils.generateSafetyNumber. split.
  - apply substring_0_length.
  - intros H. destruct (toString_base64_first_12 _ H) as [H1 H2].
    rewrite H1. auto.
Qed.

(** ** Failure of the initiator on a bundle without pre-keys *)

(** X7: on a bundle whose pre-key list is empty, [encryptMessage] throws
    (both variants).  It has drawn the ephemeral key by then, and nothing
    else: neither the KEM nor the cipher is reached. *)
Theorem X7_encryptMessage_no_preKeys {P : Primitives} :
  (forall b m (p : Party X3DH.Session.t Entropy),
    X3DH.Bundle.preKeys b = [] ->
    exists err,
      X3DH.encryptMessage b m p =
        (Throw err,
         {| session := session p;
            world := snd (CryptoUtils.generateKeyPair (world p)) |})) /\
  (forall b m (p : Party PQXDH.Session.t Entropy),
    PQXDH.Bundle.preKeys b = [] ->
    exists err,
      PQXDH.encryptMessage b m p =
        (Throw err,
         {| session := session p;
            world := snd (CryptoUtils.generateKeyPair (world p)) |})).
Proof.
  split; intros b m p H.
  - unfold X3DH.encryptMessage, bind, this_session, liftW, liftR, throw.
    rewrite H. cbn.
    destruct (CryptoUtils.generateKeyPair (world p)) as [[eph|e] w1]; cbn;
      [|eauto].
    repeat match goal with
           | |- context [CryptoUtils.deriveSharedSecret ?a ?b] =>
               destruct (CryptoUtils.deriveSharedSecret a b)
           end; eauto.
  - unfold PQXDH.encryptMessage, bind, this_session, liftW, liftR, throw.
    rewrite H. cbn.
    destruct (CryptoUtils.generateKeyPair (world p)) as [[eph|e] w1]; cbn;
      [|eauto].
    repeat match goal with
           | |- context [CryptoUtils.deriveSharedSecret ?a ?b] =>
               destruct (CryptoUtils.deriveSharedSecret a b)
           end; eauto.
Qed.

(** ** The responder draws no randomness *)

Lemma X3DH_decryptMessage_state {P : Primitives} b c e i
    (p : Party X3DH.Session.t Entropy) :
  snd (X3DH.decryptMessage b c e i p) = p.
Proof.
  unfold X3DH.decryptMessage, bind, this_session, liftR, throw.
  repeat match goal with
         | |- context [CryptoUtils.deriveSharedSecret ?a ?b] =>
             destruct (CryptoUtils.deriveSharedSecret a b)
         | |- context [js_index ?l ?i] => destruct (js_index l i)
         end; reflexivity.
Qed.

Lemma PQXDH_decryptMessage_state {P : Primitives} b c e i k
    (p : Party PQXDH.Session.t Entropy) :
  snd (PQXDH.decryptMessage b c e i k p) = p.
Proof.
  unfold PQXDH.decryptMessage, bind, this_session, liftR, throw.
  repeat match goal with
         | |- context [CryptoUtils.deriveSharedSecret ?a ?b] =>
             destruct (CryptoUtils.deriveSharedSecret a b)
         | |- context [js_index ?l ?i] => destruct (js_index l i)
         | |- context [MlKem1024_decap ?a ?b] => destruct (MlKem1024_decap a b)
         end; reflexivity.
Qed.

(** X8: [decryptMessage] (both variants) leaves the whole state as it was,
    the random source included, whether it returns or throws; so the same
    artifact decrypted a second time gives the same plaintext again: no
    pre-key is consumed and no replay is noticed. *)
Theorem X8_decryptMessage_replay {P : Primitives} :
  (forall b c e i (p : Party X3DH.Session.t Entropy),
    snd (X3DH.decryptMessage b c e i p) = p /\
    bind (X3DH.decryptMessage b c e i)
         (fun m1 => bind (X3DH.decryptMessage b c e i)
                         (fun m2 => ret (m1, m2))) p =
    match fst (X3DH.decryptMessage b c e i p) with
    | Ok m => (Ok (m, m), p)
    | Throw err => (Throw err, p)
    end) /\
  (forall b c e i k (p : Party PQXDH.Session.t Entropy),
    snd (PQXDH.decryptMessage b c e i k p) = p /\
    bind (PQXDH.decryptMessage b c e i k)
         (fun m1 => bind (PQXDH.decryptMessage b c e i k)
                         (fun m2 => ret (m1, m2))) p =
    match fst (PQXDH.decryptMessage b c e i k p) with
    | Ok m => (Ok (m, m), p)
    | Throw err => (Throw err, p)
    end).
Proof.
  split; intros.
  - pose proof (X3DH_decryptMessage_state b c e i p) as Hs.
    split; [exact Hs|].
    unfold bind at 1.
    destruct (X3DH.decryptMessage b c e i p) as [[m|err] p1] eqn:E;
      cbn in Hs; subst p1; cbn; [|reflexivity].
    unfold bind. now rewrite E.
  - pose proof (PQXDH_decryptMessage_state b c e i k p) as Hs.
    split; [exact Hs|].
    unfold bind at 1.
    destruct (PQXDH.decryptMessage b c e i k p) as [[m|err] p1] eqn:E;
      cbn in Hs; subst p1; cbn; [|reflexivity].
    unfold bind. now rewrite E.
Qed.

(** ** Between honest parties the key agreement itself cannot fail *)







Lemma X3DH_decryptMessage_secrets_run {P : Primitives} b e i
    (p : Party X3DH.Session.t Entropy) kp dh1 dh2 dh3 dh4 :
  js_index (X3DH.Session.preKeys (session p)) i = Some kp ->
  CryptoUtils.deriveSharedSecret
    (KeyPair.privateKey (X3DH.Session.identityKey (session p)))
    (X3DH.Bundle.identityKey b) = Ok dh1 ->
  CryptoUtils.deriveSharedSecret
    (KeyPair.privateKey (X3DH.Session.identityKey (session p))) e = Ok dh2 ->
  CryptoUtils.deriveSharedSecret (KeyPair.privateKey kp) e = Ok dh3 ->
  CryptoUtils.deriveSharedSecret
    (SignedPreKeyPair.privateKey (X3DH.Session.signedPreKey (session p))) e =
    Ok dh4 ->
  X3DH.decryptMessage_secrets b e i p = (Ok [dh1; dh2; dh3; dh4], p).
Proof.
  intros H0 H1 H2 H3 H4.
  unfold X3DH.decryptMessage_secrets, bind, this_session, liftR, ret.
  now rewrite H0, H1, H2, H3, H4.
Qed.



(** ** The classical part of PQXDH is X3DH *)

(** X11: PQXDH does what X3DH does and then adds the KEM.  A PQXDH session
    is an X3DH session initialised from the same random source, followed by
    one Kyber key generation; its bundle is the X3DH bundle plus the Kyber
    public key; and on both sides the first four secrets of the PQXDH list
    are the X3DH list for the classical parts of the same session, bundle and
    ephemeral key, the fifth being the KEM secret. *)
Theorem X11_PQXDH_extends_X3DH {P : Primitives} :
  (forall w s w',
    PQXDH.initializeSession w = (Ok s, w') ->
    exists w1,
      X3DH.initializeSession w = (Ok (classicalSession s), w1) /\
      MlKem1024_generateKeyPair w1 =
        (Ok (KyberKeyPair.publicKey (PQXDH.Session.kyberKeyPair s),
             KyberKeyPair.privateKey (PQXDH.Session.kyberKeyPair s)), w')) /\
  (forall (p : Party PQXDH.Session.t Entropy) b p',
    PQXDH.getPublicBundle p = (Ok b, p') ->
    X3DH.getPublicBundle (classicalParty p) =
      (Ok (classicalBundle b), classicalParty p) /\
    PQXDH.Bundle.kyberPublicKey b =
      KyberKeyPair.publicKey (PQXDH.Session.kyberKeyPair (session p))) /\
  (forall b (p p' : Party PQXDH.Session.t Entropy) eph ct secrets,
    PQXDH.encryptMessage_secrets b p = (Ok (eph, ct, secrets), p') ->
    initiator_extends_X3DH b p p' eph ct secrets) /\
  (forall b e i k (p p' : Party PQXDH.Session.t Entropy) secrets,
    PQXDH.decryptMessage_secrets b e i k p = (Ok secrets, p') ->
    responder_extends_X3DH b e i k p secrets).
Proof.
  split; [|split; [|split]].
  - intros w s w' H. unfold PQXDH.initializeSession in H. invM.
    eexists. split; [|eassumption].
    unfold X3DH.initializeSession.
    repeat match goal with
           | H : ?c ?w = (Ok _, _) |- context [bind ?c _ ?w] =>
               rewrite (bind_run _ _ _ _ _ H)
           end.
    reflexivity.
  - intros p b p' H. unfold PQXDH.getPublicBundle in H. invM.
    split; reflexivity.
  - intros b p p' eph ct secrets H.
    unfold PQXDH.encryptMessage_secrets in H. invM.
    rewrite js_index_0 in *.
    do 2 eexists. split; [|split; [eassumption|reflexivity]].
    cbn [firstn].
    eapply (X3DH_encryptMessage_secrets_run (classicalBundle b) (classicalParty p));
      cbn; eassumption.
  - intros b e i k p p' secrets H.
    unfold PQXDH.decryptMessage_secrets in H. invM.
    eexists. split; [|split; [eassumption|reflexivity]].
    cbn [firstn].
    eapply (X3DH_decryptMessage_secrets_run (classicalBundle b) e i (classicalParty p));
      cbn; eassumption.
Qed.

(** ** The demonstration drivers *)

Lemma log_Ok {S W} (l : Console.line) (st st' : Stage S W) u :
  log l st = (Ok u, st') ->
  st' = {| alice := alice st; bob := bob st;
           process := {| entropy := entropy (process st);
                         console := (console (process st) ++ [l])%list |} |}.
Proof. unfold log. intros H. now inversion H. Qed.

Lemma call_Ok {S W A} (who : Who) (m : M (Party S W) A) (st st' : Stage S W) a :
  call who m st = (Ok a, st') ->
  exists p',
    m {| session := match who with Alice => alice st | Bob => bob st end;
         world := entropy (process st) |} = (Ok a, p') /\
    st' = match who with
          | Alice => {| alice := session p'; bob := bob st;
                        process := {| entropy := world p';
                                      console := console (process st) |} |}
          | Bob => {| alice := alice st; bob := session p';
                      process := {| entropy := world p';
                                    console := console (process st) |} |}
          end.
Proof.
  unfold call.
  destruct (m _) as [r p'] eqn:E. intros H. inversion H; subst.
  now exists p'.
Qed.

(** Take a successful run of a driver apart. *)
Ltac invS :=
  repeat match goal with
  | H : bind ?c ?k ?s = (Ok ?b, ?s') |- _ =>
      apply (bind_Ok c k s b s') in H; destruct H as (? & ? & ? & H)
  | H : log ?l ?st = (Ok ?u, ?st') |- _ =>
      apply (log_Ok l st st' u) in H;
      cbn [alice bob process entropy console] in H; subst st'
  | H : call ?who ?m ?st = (Ok ?a, ?st') |- _ =>
      apply (call_Ok who m st st' a) in H; destruct H as (? & H & ?);
      cbn [alice bob process entropy console] in *; subst st'
  end.

Lemma booleans_app (l1 l2 : list Console.line) :
  Console.booleans (l1 ++ l2) = (Console.booleans l1 ++ Console.booleans l2)%list.
Proof. apply flat_map_app. Qed.

Lemma labelled_app (label : string) (l1 l2 : list Console.line) :
  Console.labelled label (l1 ++ l2) =
  (Console.labelled label l1 ++ Console.labelled label l2)%list.
Proof. apply flat_map_app. Qed.

Lemma X3DH_roundtrip {P : Primitives}
    (Hx : x25519_commutes P) (Ha : AES_inverts P)
    sa sb wa0 wa0' wb0 wb0' bundleA bundleB wa wb m art pa' :
  X3DH.initializeSession wa0 = (Ok sa, wa0') ->
  X3DH.initializeSession wb0 = (Ok sb, wb0') ->
  X3DH_publishes sa bundleA ->
  X3DH_publishes sb bundleB ->
  X3DH.encryptMessage bundleB m {| session := sa; world := wa |} = (Ok art, pa') ->
  X3DH.decryptMessage bundleA
    (X3DH.EncryptedMessage.encryptedMessage art)
    (X3DH.EncryptedMessage.ephemeralKey art)
    (X3DH.EncryptedMessage.usedPreKeyIndex art)
    {| session := sb; world := wb |} = (Ok m, {| session := sb; world := wb |}).
Proof.
  intros HA HB HbA HbB H.
  destruct (X3DH_encryptMessage_inv _ _ _ _ _ H)
    as (eph & w1 & w2 & pk0 & dh1 & dh2 & dh3 & dh4 &
        Hg & H0 & H1 & H2 & H3 & H4 & Hc & He & Hi & _).
  pose proof (X3DH_encryptMessage_secrets_run
                bundleB _ eph w1 pk0 dh1 dh2 dh3 dh4 Hg H0 H1 H2 H3 H4) as Hs.
  pose proof (X3DH_responder_mirrors Hx wa0 wa0' wb0 wb0'
                {| session := sa; world := wa |} {| session := sb; world := wb |}
                _ _ _ bundleA bundleB eph _
                HA HB (HbA wa) (HbB wb) Hs) as Hr.
  rewrite He, Hi.
  rewrite X3DH_decryptMessage_via_secrets.
  rewrite (bind_run _ _ _ _ _ Hr).
  unfold liftR, CryptoUtils.decrypt.
  now rewrite (Ha _ _ _ _ _ Hc).
Qed.

Lemma process_eta {W} (pr : Process W) :
  pr = {| entropy := entropy pr; console := (console pr ++ [])%list |}.
Proof. destruct pr. cbn. now rewrite app_nil_r. Qed.

Lemma X3DH_conversation_log {P : Primitives}
    (Hx : x25519_commutes P) (Ha : AES_inverts P)
    sa sb wa0 wa0' wb0 wb0' bundleA bundleB :
  X3DH.initializeSession wa0 = (Ok sa, wa0') ->
  X3DH.initializeSession wb0 = (Ok sb, wb0') ->
  X3DH_publishes sa bundleA ->
  X3DH_publishes sb bundleB ->
  forall rest i pr st',
    X3DHDemo.conversation bundleA bundleB i rest
      {| alice := sa; bob := sb; process := pr |} = (Ok tt, st') ->
    exists w lines,
      st' = {| alice := sa; bob := sb;
               process := {| entropy := w;
                             console := (console pr ++ lines)%list |} |} /\
      Console.booleans lines = repeat true (List.length rest) /\
      Console.labelled "Decrypted message:" lines = rest.
Proof.
  intros HA HB HbA HbB.
  induction rest as [|message rest IH]; intros i pr st' H.
  - cbn in H. apply ret_Ok in H. destruct H as [_ ->].
    exists (entropy pr), []. split; [|split; reflexivity].
    now rewrite <- process_eta.
  - cbn [X3DHDemo.conversation] in H.
    destruct (i mod 2 =? 0)%Z; invS.
    + match goal with
      | He : X3DH.encryptMessage _ _ _ = (Ok ?art, ?p1),
        Hd : X3DH.decryptMessage _ _ _ _ _ = (Ok ?d, ?p2) |- _ =>
          pose proof (X3DH_encryptMessage_frame bundleB message
                        {| session := sa; world := entropy pr |}) as Hf;
          rewrite He in Hf; cbn in Hf;
          destruct p1 as [s1 w1]; cbn in Hf; subst s1;
          cbn [session world] in *;
          rewrite (X3DH_roundtrip Hx Ha _ _ _ _ _ _ _ _ _ _ _ _ _
                     HA HB HbA HbB He) in Hd;
          inversion Hd; subst d p2; clear Hd
      end.
      cbn [session world] in H.
      apply IH in H. destruct H as (w & lines & -> & Hb & Hl).
      eexists. eexists. split.
      * cbn [console entropy process]. repeat rewrite <- app_assoc.
        reflexivity.
      * rewrite !booleans_app, !labelled_app, String.eqb_refl, Hb, Hl.
        split; reflexivity.
    + match goal with
      | He : X3DH.encryptMessage _ _ _ = (Ok ?art, ?p1),
        Hd : X3DH.decryptMessage _ _ _ _ _ = (Ok ?d, ?p2) |- _ =>
          pose proof (X3DH_encryptMessage_frame bundleA message
                        {| session := sb; world := entropy pr |}) as Hf;
          rewrite He in Hf; cbn in Hf;
          destruct p1 as [s1 w1]; cbn in Hf; subst s1;
          cbn [session world] in *;
          rewrite (X3DH_roundtrip Hx Ha _ _ _ _ _ _ _ _ _ _ _ _ _
                     HB HA HbB HbA He) in Hd;
          inversion Hd; subst d p2; clear Hd
      end.
      cbn [session world] in H.
      apply IH in H. destruct H as (w & lines & -> & Hb & Hl).
      eexists. eexists. split.
      * cbn [console entropy process]. repeat rewrite <- app_assoc.
        reflexivity.
      * rewrite !booleans_app, !labelled_app, String.eqb_refl, Hb, Hl.
        split; reflexivity.
Qed.

Lemma log_process_Ok {W} (l : Console.line) (pr pr' : Process W) u :
  log_process l pr = (Ok u, pr') ->
  pr' = {| entropy := entropy pr; console := (console pr ++ [l])%list |}.
Proof. unfold log_process. intros H. now inversion H. Qed.

Lemma construct_Ok {W A} (c : M W A) (pr pr' : Process W) a :
  construct c pr = (Ok a, pr') ->
  exists w, c (entropy pr) = (Ok a, w) /\
            pr' = {| entropy := w; console := console pr |}.
Proof.
  unfold construct. destruct (c (entropy pr)) as [r w]. intros H.
  inversion H; subst. now exists w.
Qed.

Lemma within_Ok {S W A} (a b : S) (c : M (Stage S W) A) (pr pr' : Process W) x :
  within a b c pr = (Ok x, pr') ->
  exists st, c {| alice := a; bob := b; process := pr |} = (Ok x, st) /\
             pr' = process st.
Proof.
  unfold within. destruct (c _) as [r st]. intros H.
  inversion H; subst. now exists st.
Qed.

Lemma X3DH_getPublicBundle_publishes {P : Primitives}
    (p p' : Party X3DH.Session.t Entropy) b :
  X3DH.getPublicBundle p = (Ok b, p') ->
  p' = p /\ X3DH_publishes (session p) b.
Proof.
  unfold X3DH.getPublicBundle, bind, this_session, ret. cbn. intros H.
  inversion H; subst. split; [reflexivity|]. intros w. reflexivity.
Qed.

Lemma generateSafetyNumber_eqb {P : Primitives} (k1 k2 : string) :
  String.eqb (CryptoUtils.generateSafetyNumber k1 k2)
             (CryptoUtils.generateSafetyNumber k2 k1) = true.
Proof.
  unfold CryptoUtils.generateSafetyNumber, CryptoUtils.combinedKeys.
  rewrite (orderKeys_sym k1 k2). apply String.eqb_refl.
Qed.

(** X12: whenever the X3DH demonstration ([main] of [demo.ts]) runs to its
    end, every comparison it printed is [true] (the safety numbers match and
    each of the five messages matches) and the five decrypted messages it
    printed are the five originals, in order. *)
Theorem X12_X3DH_demo_messages_match {P : Primitives}
    (Hx : x25519_commutes P) (Ha : AES_inverts P) pr pr' :
  X3DHDemo.main pr = (Ok tt, pr') ->
  exists lines,
    console pr' = (console pr ++ lines)%list /\
    Console.booleans lines = repeat true 6 /\
    Console.labelled "Decrypted message:" lines = X3DHDemo.messages.
Proof.
  intros H. unfold X3DHDemo.main in H.
  apply bind_Ok in H. destruct H as (? & pr1 & H1 & H).
  apply log_process_Ok in H1. subst pr1.
  apply bind_Ok in H. destruct H as (sa & pr2 & HA & H).
  apply construct_Ok in HA. destruct HA as (wa & HA & ->).
  apply bind_Ok in H. destruct H as (sb & pr3 & HB & H).
  apply construct_Ok in HB. destruct HB as (wb & HB & ->).
  apply within_Ok in H. destruct H as (st & H & ->).
  cbn [entropy console] in *.
  apply bind_Ok in H. destruct H as (? & st1 & H1 & H).
  apply log_Ok in H1. cbn [alice bob process entropy console] in H1. subst st1.
  apply bind_Ok in H. destruct H as (bundleB & st1 & H1 & H).
  apply call_Ok in H1. destruct H1 as (pb & HbB & ->).
  cbn [alice bob process entropy console] in *.
  apply X3DH_getPublicBundle_publishes in HbB. destruct HbB as [-> HbB].
  cbn [session world] in *.
  apply bind_Ok in H. destruct H as (? & st1 & H1 & H).
  apply log_Ok in H1. cbn [alice bob process entropy console] in H1. subst st1.
  apply bind_Ok in H. destruct H as (bundleA & st1 & H1 & H).
  apply call_Ok in H1. destruct H1 as (pa & HbA & ->).
  cbn [alice bob process entropy console] in *.
  apply X3DH_getPublicBundle_publishes in HbA. destruct HbA as [-> HbA].
  cbn [session world] in *.
  cbv zeta in H.
  do 6 (apply bind_Ok in H; destruct H as (? & ?st & H1 & H);
        apply log_Ok in H1; cbn [alice bob process entropy console] in H1;
        subst).
  apply bind_Ok in H. destruct H as ([] & st1 & Hc & H).
  apply (X3DH_conversation_log Hx Ha _ _ _ _ _ _ _ _ HA HB HbA HbB) in Hc.
  destruct Hc as (w & lines & -> & Hbl & Hl).
  invS.
  cbn [alice bob process entropy console].
  eexists. split; [|split].
  - repeat rewrite <- app_assoc. reflexivity.
  - rewrite !booleans_app, Hbl, generateSafetyNumber_eqb. reflexivity.
  - rewrite !labelled_app, Hl. reflexivity.
Qed.

Lemma PQXDH_roundtrip {P : Primitives}
    (Hx : x25519_commutes P) (Ha : AES_inverts P) (Hk : MlKem1024_correct P)
    sa sb wa0 wa0' wb0 wb0' bundleA bundleB wa wb m art pa' :
  PQXDH.initializeSession wa0 = (Ok sa, wa0') ->
  PQXDH.initializeSession wb0 = (Ok sb, wb0') ->
  PQXDH_publishes sa bundleA ->
  PQXDH_publishes sb bundleB ->
  PQXDH.encryptMessage bundleB m {| session := sa; world := wa |} = (Ok art, pa') ->
  PQXDH.decryptMessage bundleA
    (PQXDH.EncryptedMessage.encryptedMessage art)
    (PQXDH.EncryptedMessage.ephemeralKey art)
    (PQXDH.EncryptedMessage.usedPreKeyIndex art)
    (PQXDH.EncryptedMessage.kyberCiphertext art)
    {| session := sb; world := wb |} = (Ok m, {| session := sb; world := wb |}).
Proof.
  intros HA HB HbA HbB H.
  destruct (PQXDH_encryptMessage_inv _ _ _ _ _ H)
    as (eph & w1 & w2 & w3 & pk0 & dh1 & dh2 & dh3 & dh4 & ss &
        Hg & H0 & H1 & H2 & H3 & H4 & Hkem & Hc & He & Hi & _).
  pose proof (PQXDH_encryptMessage_secrets_run
                bundleB _ eph w1 w2 pk0 dh1 dh2 dh3 dh4 _ ss
                Hg H0 H1 H2 H3 H4 Hkem) as Hs.
  pose proof (PQXDH_responder_mirrors Hx Hk wa0 wa0' wb0 wb0'
                {| session := sa; world := wa |} {| session := sb; world := wb |}
                _ _ _ bundleA bundleB eph _ _
                HA HB (HbA wa) (HbB wb) Hs) as Hr.
  rewrite He, Hi.
  rewrite PQXDH_decryptMessage_via_secrets.
  rewrite (bind_run _ _ _ _ _ Hr).
  unfold liftR, CryptoUtils.decrypt.
  now rewrite (Ha _ _ _ _ _ Hc).
Qed.


Lemma PQXDH_conversation_log {P : Primitives}
    (Hx : x25519_commutes P) (Ha : AES_inverts P) (Hk : MlKem1024_correct P)
    sa sb wa0 wa0' wb0 wb0' bundleA bundleB :
  PQXDH.initializeSession wa0 = (Ok sa, wa0') ->
  PQXDH.initializeSession wb0 = (Ok sb, wb0') ->
  PQXDH_publishes sa bundleA ->
  PQXDH_publishes sb bundleB ->
  forall rest i pr st',
    PQXDHDemo.conversation bundleA bundleB i rest
      {| alice := sa; bob := sb; process := pr |} = (Ok tt, st') ->
    exists w lines,
      st' = {| alice := sa; bob := sb;
               process := {| entropy := w;
                             console := (console pr ++ lines)%list |} |} /\
      Console.booleans lines = repeat true (List.length rest) /\
      Console.labelled "Decrypted message:" lines = rest.
Proof.
  intros HA HB HbA HbB.
  induction rest as [|message rest IH]; intros i pr st' H.
  - cbn in H. apply ret_Ok in H. destruct H as [_ ->].
    exists (entropy pr), []. split; [|split; reflexivity].
    now rewrite <- process_eta.
  - cbn [PQXDHDemo.conversation] in H.
    destruct (i mod 2 =? 0)%Z; invS.
    + match goal with
      | He : PQXDH.encryptMessage _ _ _ = (Ok ?art, ?p1),
        Hd : PQXDH.decryptMessage _ _ _ _ _ _ = (Ok ?d, ?p2) |- _ =>
          pose proof (PQXDH_encryptMessage_frame bundleB message
                        {| session := sa; world := entropy pr |}) as Hf;
          rewrite He in Hf; cbn in Hf;
          destruct p1 as [s1 w1]; cbn in Hf; subst s1;
          cbn [session world] in *;
          rewrite (PQXDH_roundtrip Hx Ha Hk _ _ _ _ _ _ _ _ _ _ _ _ _
                     HA HB HbA HbB He) in Hd;
          inversion Hd; subst d p2; clear Hd
      end.
      cbn [session world] in H.
      apply IH in H. destruct H as (w & lines & -> & Hb & Hl).
      eexists. eexists. split.
      * cbn [console entropy process]. repeat rewrite <- app_assoc.
        reflexivity.
      * rewrite !booleans_app, !labelled_app, String.eqb_refl, Hb, Hl.
        split; reflexivity.
    + match goal with
      | He : PQXDH.encryptMessage _ _ _ = (Ok ?art, ?p1),
        Hd : PQXDH.decryptMessage _ _ _ _ _ _ = (Ok ?d, ?p2) |- _ =>
          pose proof (PQXDH_encryptMessage_frame bundleA message
                        {| session := sb; world := entropy pr |}) as Hf;
          rewrite He in Hf; cbn in Hf;
          destruct p1 as [s1 w1]; cbn in Hf; subst s1;
          cbn [session world] in *;
          rewrite (PQXDH_roundtrip Hx Ha Hk _ _ _ _ _ _ _ _ _ _ _ _ _
                     HB HA HbB HbA He) in Hd;
          inversion Hd; subst d p2; clear Hd
      end.
      cbn [session world] in H.
      apply IH in H. destruct H as (w & lines & -> & Hb & Hl).
      eexists. eexists. split.
      * cbn [console entropy process]. repeat rewrite <- app_assoc.
        reflexivity.
      * rewrite !booleans_app, !labelled_app, String.eqb_refl, Hb, Hl.
        split; reflexivity.
Qed.


Lemma PQXDH_getPublicBundle_publishes {P : Primitives}
    (p p' : Party PQXDH.Session.t Entropy) b :
  PQXDH.getPublicBundle p = (Ok b, p') ->
  p' = p /\ PQXDH_publishes (session p) b.
Proof.
  unfold PQXDH.getPublicBundle, bind, this_session, ret. cbn. intros H.
  inversion H; subst. split; [reflexivity|]. intros w. reflexivity.
Qed.


(** X13: the same for the PQXDH demonstration: when it runs to its end,
    all six comparisons printed are [true] and the decrypted messages
    printed are the five originals, in order. *)
Theorem X13_PQXDH_demo_messages_match {P : Primitives}
    (Hx : x25519_commutes P) (Ha : AES_inverts P) (Hk : MlKem1024_correct P)
    pr pr' :
  PQXDHDemo.main pr = (Ok tt, pr') ->
  exists lines,
    console pr' = (console pr ++ lines)%list /\
    Console.booleans lines = repeat true 6 /\
    Console.labelled "Decrypted message:" lines = PQXDHDemo.messages.
Proof.
  intros H. unfold PQXDHDemo.main in H.
  apply bind_Ok in H. destruct H as (? & pr1 & H1 & H).
  apply log_process_Ok in H1. subst pr1.
  apply bind_Ok in H. destruct H as (sa & pr2 & HA & H).
  apply construct_Ok in HA. destruct HA as (wa & HA & ->).
  apply bind_Ok in H. destruct H as (sb & pr3 & HB & H).
  apply construct_Ok in HB. destruct HB as (wb & HB & ->).
  apply within_Ok in H. destruct H as (st & H & ->).
  cbn [entropy console] in *.
  apply bind_Ok in H. destruct H as (? & st1 & H1 & H).
  apply log_Ok in H1. cbn [alice bob process entropy console] in H1. subst st1.
  apply bind_Ok in H. destruct H as (bundleB & st1 & H1 & H).
  apply call_Ok in H1. destruct H1 as (pb & HbB & ->).
  cbn [alice bob process entropy console] in *.
  apply PQXDH_getPublicBundle_publishes in HbB. destruct HbB as [-> HbB].
  cbn [session world] in *.
  apply bind_Ok in H. destruct H as (? & st1 & H1 & H).
  apply log_Ok in H1. cbn [alice bob process entropy console] in H1. subst st1.
  apply bind_Ok in H. destruct H as (bundleA & st1 & H1 & H).
  apply call_Ok in H1. destruct H1 as (pa & HbA & ->).
  cbn [alice bob process entropy console] in *.
  apply PQXDH_getPublicBundle_publishes in HbA. destruct HbA as [-> HbA].
  cbn [session world] in *.
  cbv zeta in H.
  do 6 (apply bind_Ok in H; destruct H as (? & ?st & H1 & H);
        apply log_Ok in H1; cbn [alice bob process entropy console] in H1;
        subst).
  apply bind_Ok in H. destruct H as ([] & st1 & Hc & H).
  apply (PQXDH_conversation_log Hx Ha Hk _ _ _ _ _ _ _ _ HA HB HbA HbB) in Hc.
  destruct Hc as (w & lines & -> & Hbl & Hl).
  invS.
  cbn [alice bob process entropy console].
  eexists. split; [|split].
  - repeat rewrite <- app_assoc. reflexivity.
  - rewrite !booleans_app, Hbl, generateSafetyNumber_eqb. reflexivity.
  - rewrite !labelled_app, Hl. reflexivity.
Qed.

(** ** The published bundle stays valid *)

Lemma X3DH_getPublicBundle_of_session {P : Primitives}
    (p q : Party X3DH.Session.t Entropy) :
  session p = session q ->
  fst (X3DH.getPublicBundle p) = fst (X3DH.getPublicBundle q).
Proof.
  intros H. unfold X3DH.getPublicBundle, bind, this_session, ret. cbn.
  now rewrite H.
Qed.

Lemma PQXDH_getPublicBundle_of_session {P : Primitives}
    (p q : Party PQXDH.Session.t Entropy) :
  session p = session q ->
  fst (PQXDH.getPublicBundle p) = fst (PQXDH.getPublicBundle q).
Proof.
  intros H. unfold PQXDH.getPublicBundle, bind, this_session, ret. cbn.
  now rewrite H.
Qed.

(** X14: after any call of [encryptMessage] or [decryptMessage], returning
    or throwing, [getPublicBundle] gives the bundle it gave before: a bundle
    once published stays the party's bundle (both variants). *)
Theorem X14_published_bundle_stays_valid {P : Primitives} :
  (forall b m (p : Party X3DH.Session.t Entropy),
    fst (X3DH.getPublicBundle (snd (X3DH.encryptMessage b m p))) =
    fst (X3DH.getPublicBundle p)) /\
  (forall b c e i (p : Party X3DH.Session.t Entropy),
    fst (X3DH.getPublicBundle (snd (X3DH.decryptMessage b c e i p))) =
    fst (X3DH.getPublicBundle p)) /\
  (forall b m (p : Party PQXDH.Session.t Entropy),
    fst (PQXDH.getPublicBundle (snd (PQXDH.encryptMessage b m p))) =
    fst (PQXDH.getPublicBundle p)) /\
  (forall b c e i k (p : Party PQXDH.Session.t Entropy),
    fst (PQXDH.getPublicBundle (snd (PQXDH.decryptMessage b c e i k p))) =
    fst (PQXDH.getPublicBundle p)).
Proof.
  split; [|split; [|split]]; intros.
  - apply X3DH_getPublicBundle_of_session, X3DH_encryptMessage_frame.
  - apply X3DH_getPublicBundle_of_session, X3DH_decryptMessage_frame.
  - apply PQXDH_getPublicBundle_of_session, PQXDH_encryptMessage_frame.
  - apply PQXDH_getPublicBundle_of_session, PQXDH_decryptMessage_frame.
Qed.

(** ** The further properties at work on concrete runs *)

(** The key pair drawn at counter 7. *)
Lemma X1_generateKeyPair_consistent_witness :
  @randomBytes Toy.primitives 32 7%nat =
    (Ok (Buffer.from_base64 (KeyPair.privateKey Scenario.keyA)), 39%nat) /\
  keyPair_consistent (P := Toy.primitives)
    (KeyPair.privateKey Scenario.keyA) (KeyPair.publicKey Scenario.keyA).
Proof.
  apply (X1_generateKeyPair_consistent (P := Toy.primitives)
           7%nat Scenario.keyA 39%nat).
  vm_compute. reflexivity.
Defined.

(** Alice's two sessions. *)
Lemma X2_initializeSession_invariant_witness :
  session_material (P := Toy.primitives)
    (X3DH.Session.identityKey (session Scenario.alice))
    (X3DH.Session.preKeys (session Scenario.alice))
    (X3DH.Session.signedPreKey (session Scenario.alice)) /\
  session_material (P := Toy.primitives)
    (PQXDH.Session.identityKey (session Scenario.aliceQ))
    (PQXDH.Session.preKeys (session Scenario.aliceQ))
    (PQXDH.Session.signedPreKey (session Scenario.aliceQ)).
Proof.
  destruct (X2_initializeSession_invariant (P := Toy.primitives)) as [HX HQ].
  split.
  - refine (HX 0%nat (session Scenario.alice) _ _). vm_compute. reflexivity.
  - refine (proj1 (HQ 0%nat (session Scenario.aliceQ) _ _)).
    vm_compute. reflexivity.
Defined.

(** A key text and the same text with a blank inside. *)
Lemma X3_decrypt_encrypt_witness :
  CryptoUtils.decrypt (P := Toy.primitives)
    (Scenario.returned EmptyString
       (CryptoUtils.encrypt (P := Toy.primitives) "hello" "c2VjcmV0" 0%nat))
    "c2Vj cmV0" = Ok "hello".
Proof.
  refine (X3_decrypt_encrypt (P := Toy.primitives) Toy_AES_inverts
            "hello" "c2VjcmV0" "c2Vj cmV0" 0%nat _ _ _ _);
    vm_compute; reflexivity.
Defined.

(** Two secrets, and their concatenation as one secret. *)
Lemma X5_combineSharedSecrets_concatenation_witness :
  CryptoUtils.combineSharedSecrets (P := Toy.primitives) ["AAAA"; "////"] =
  CryptoUtils.combineSharedSecrets (P := Toy.primitives) ["AAAA////"].
Proof.
  apply (proj1 (X5_combineSharedSecrets_concatenation (P := Toy.primitives))).
  vm_compute. reflexivity.
Defined.

(** The safety number of two generated public keys. *)
Lemma X6_generateSafetyNumber_size_witness :
  CryptoUtils.generateSafetyNumber (P := Toy.primitives)
    (KeyPair.publicKey Scenario.keyA) (KeyPair.publicKey Scenario.keyB) =
    Buffer.toString_base64
      (firstn 9
         (@sha512 Toy.primitives
            (CryptoUtils.combinedKeys
               (KeyPair.publicKey Scenario.keyA)
               (KeyPair.publicKey Scenario.keyB)))) /\
  String.length
    (CryptoUtils.generateSafetyNumber (P := Toy.primitives)
       (KeyPair.publicKey Scenario.keyA) (KeyPair.publicKey Scenario.keyB)) =
    12%nat.
Proof.
  apply (proj2 (X6_generateSafetyNumber_size (P := Toy.primitives)
                  (KeyPair.publicKey Scenario.keyA)
                  (KeyPair.publicKey Scenario.keyB))).
  vm_compute. lia.
Defined.

(** Alice encrypting to a bundle without pre-keys. *)
Lemma X7_encryptMessage_no_preKeys_witness :
  (exists err,
     X3DH.encryptMessage (P := Toy.primitives)
       Scenario.Blank.x3dhBundle "hello" Scenario.alice =
       (Throw err,
        {| session := session Scenario.alice;
           world := snd (CryptoUtils.generateKeyPair (P := Toy.primitives)
                           (world Scenario.alice)) |})) /\
  (exists err,
     PQXDH.encryptMessage (P := Toy.primitives)
       Scenario.Blank.pqxdhBundle "hello" Scenario.aliceQ =
       (Throw err,
        {| session := session Scenario.aliceQ;
           world := snd (CryptoUtils.generateKeyPair (P := Toy.primitives)
                           (world Scenario.aliceQ)) |})).
Proof.
  destruct (X7_encryptMessage_no_preKeys (P := Toy.primitives)) as [HX HQ].
  split.
  - apply HX. reflexivity.
  - apply HQ. reflexivity.
Defined.



(** Alice's PQXDH session, bundle and secrets, and Bob's secrets. *)
Lemma X11_PQXDH_extends_X3DH_witness :
  (exists w1,
     X3DH.initializeSession (P := Toy.primitives) 0%nat =
       (Ok (classicalSession (session Scenario.aliceQ)), w1) /\
     @MlKem1024_generateKeyPair Toy.primitives w1 =
       (Ok (KyberKeyPair.publicKey
              (PQXDH.Session.kyberKeyPair (session Scenario.aliceQ)),
            KyberKeyPair.privateKey
              (PQXDH.Session.kyberKeyPair (session Scenario.aliceQ))),
        416%nat)) /\
  X3DH.getPublicBundle (P := Toy.primitives) (classicalParty Scenario.aliceQ) =
    (Ok (classicalBundle Scenario.aliceBundleQ), classicalParty Scenario.aliceQ) /\
  initiator_extends_X3DH (P := Toy.primitives)
    Scenario.bobBundleQ Scenario.aliceQ
    {| session := session Scenario.aliceQ; world := 2064%nat |}
    (fst (fst Runs.secretsQ)) (snd (fst Runs.secretsQ)) (snd Runs.secretsQ) /\
  responder_extends_X3DH (P := Toy.primitives)
    Scenario.aliceBundleQ
    (PQXDH.EncryptedMessage.ephemeralKey Scenario.messageQ) 0
    (PQXDH.EncryptedMessage.kyberCiphertext Scenario.messageQ)
    Scenario.bobQ Runs.secretsBobQ.
Proof.
  destruct (X11_PQXDH_extends_X3DH (P := Toy.primitives))
    as (H1 & H2 & H3 & H4).
  split; [|split; [|split]].
  - apply H1. vm_compute. reflexivity.
  - refine (proj1 (H2 Scenario.aliceQ Scenario.aliceBundleQ Scenario.aliceQ _)).
    vm_compute. reflexivity.
  - apply H3. vm_compute. reflexivity.
  - refine (H4 _ _ _ _ _ Scenario.bobQ _ _). vm_compute. reflexivity.
Defined.

(** The X3DH demonstration from an empty console. *)
Lemma X12_X3DH_demo_messages_match_witness :
  exists lines,
    console Runs.finish = (console Runs.start ++ lines)%list /\
    Console.booleans lines = repeat true 6 /\
    Console.labelled "Decrypted message:" lines = X3DHDemo.messages.
Proof.
  apply (X12_X3DH_demo_messages_match (P := Toy.primitives)
           Toy_x25519_commutes Toy_AES_inverts Runs.start Runs.finish).
  vm_compute. reflexivity.
Defined.

(** The PQXDH demonstration from an empty console. *)
Lemma X13_PQXDH_demo_messages_match_witness :
  exists lines,
    console Runs.finishQ = (console Runs.start ++ lines)%list /\
    Console.booleans lines = repeat true 6 /\
    Console.labelled "Decrypted message:" lines = PQXDHDemo.messages.
Proof.
  apply (X13_PQXDH_demo_messages_match (P := Toy.primitives)
           Toy_x25519_commutes Toy_AES_inverts Toy_MlKem1024_correct
           Runs.start Runs.finishQ).
  vm_compute. reflexivity.
Defined.
